(** * Fitness tracker: a shallow embedding of [workout.py]

    The program keeps four SQLite tables (users, workouts, challenges,
    challenge_participants) behind a process-wide connection and renders
    Streamlit pages on top of them.  The embedding follows that shape:

    - [Py]  the slice of Python the code relies on: exceptions, tuples
            returned by [fetchone], subscripting, truthiness, f-strings;
    - [Db]  the rows, the store and what the schema itself enforces;
    - the functions of [workout.py], under their own names, as functions
      from a store (and the widget inputs) to a store and/or the widgets
      rendered;
    - the properties of those functions.

    Numbers are Python integers, hence [Z].  A stored number is an
    SQLite INTEGER, so within 64 bits; sums are modelled as the code
    computes them: SQLite's SUM raises once an addition overflows, a
    pandas int64 sum wraps around.  Texts are kept as their UTF-8 bytes. *)

From stdpp Require Import base numbers option list gmap strings sorting pretty.

Local Open Scope Z_scope.

(* ================================================================== *)
(** ** Python values, exceptions and tuples *)

Module Py.

(** The exceptions the modelled code can raise. *)
Inductive exn : Type :=
| TypeError        (* subscripting None *)
| IndexError       (* tuple index out of range *)
| IntegrityError   (* sqlite3: a UNIQUE constraint failed *)
| OperationalError (* sqlite3: integer overflow in SUM *)
| UnicodeEncodeError.
    (* FPDF: text outside Latin-1 with a built-in font (fpdf2 names it
       FPDFUnicodeEncodingException) *)

Inductive result (A : Type) : Type :=
| Ok (a : A)
| Raise (e : exn).
Global Arguments Ok {A} a.
Global Arguments Raise {A} e.

(** Statements run in sequence; the first raise ends the run. *)
Global Instance result_ret : MRet result := λ A a, Ok a.
Global Instance result_bind : MBind result := λ A B k m,
  match m with
  | Ok a => k a
  | Raise e => Raise e
  end.

(** A column value of a fetched row. *)
Inductive value : Type :=
| VInt (z : Z)
| VStr (s : string).

Global Instance value_eq_dec : EqDecision value.
Proof. solve_decision. Defined.

(** A row as the sqlite3 cursor returns it. *)
Definition tuple : Type := list value.

(** [t[i]] where [t] is the outcome of [fetchone()]: [None] is not
    subscriptable, and a tuple raises on an index past its end. *)
Definition getitem (t : option tuple) (i : nat) : result value :=
  match t with
  | None => Raise TypeError
  | Some vs =>
      match vs !! i with
      | Some v => Ok v
      | None => Raise IndexError
      end
  end.

(** Truth value of the outcome of [fetchone()]: [None] and the empty
    tuple are falsy. *)
Definition truthy (t : option tuple) : bool :=
  match t with
  | None => false
  | Some [] => false
  | Some (_ :: _) => true
  end.

(** [a == b] on column values. *)
Definition eqb (a b : value) : bool := bool_decide (a = b).

(** [f"{v}"]. *)
Definition fmt (v : value) : string :=
  match v with
  | VInt z => pretty z
  | VStr s => s
  end.

End Py.

Import Py.

(* ================================================================== *)
(** ** 64-bit integers and Latin-1 text *)

Definition int64_min : Z := - 2 ^ 63.
Definition int64_max : Z := 2 ^ 63 - 1.

(** What an SQLite INTEGER and a pandas int64 column can hold. *)
Definition in_int64 (z : Z) : Prop := int64_min ≤ z ≤ int64_max.

Global Instance in_int64_dec (z : Z) : Decision (in_int64 z).
Proof. unfold in_int64. apply _. Defined.

(** Two's-complement wrap-around, as numpy's int64 arithmetic has it. *)
Definition wrap64 (z : Z) : Z := (z - int64_min) `mod` 2 ^ 64 + int64_min.

(** [sqlite3AddInt64]: the sum, or [None] when it leaves the range. *)
Definition add_int64 (a b : Z) : option Z :=
  if decide (in_int64 (a + b)) then Some (a + b) else None.

(** The bytes of UTF-8 that matter for Latin-1: a byte below 128 is an
    ASCII character; 194 and 195 are the lead bytes of the code points
    U+0080 to U+00FF; a byte from 128 to 191 continues a code point. *)
Definition is_ascii (a : Ascii.ascii) : bool :=
  (Ascii.nat_of_ascii a <? 128)%nat.
Definition is_latin1_lead (a : Ascii.ascii) : bool :=
  ((Ascii.nat_of_ascii a =? 194) || (Ascii.nat_of_ascii a =? 195))%nat.
Definition is_continuation (a : Ascii.ascii) : bool :=
  ((128 <=? Ascii.nat_of_ascii a) && (Ascii.nat_of_ascii a <? 192))%nat.

(** Whether a text can be encoded in Latin-1: every code point is one
    ASCII byte or a lead byte 194 or 195 with its continuation byte.
    Any other byte starts a code point beyond Latin-1 (or none at all). *)
Fixpoint latin1 (s : string) : bool :=
  match s with
  | EmptyString => true
  | String a rest =>
      if is_ascii a then latin1 rest
      else if is_latin1_lead a then
        match rest with
        | String b rest' => is_continuation b && latin1 rest'
        | EmptyString => false
        end
      else false
  end.

(** Every byte is below 128: the text is ASCII. *)
Fixpoint ascii_only (s : string) : bool :=
  match s with
  | EmptyString => true
  | String a rest => is_ascii a && ascii_only rest
  end.

(* ================================================================== *)
(** ** The database *)

Module Db.

(** users (id, username UNIQUE, password, name, email) *)
Record User : Type := mkUser {
  u_id : Z;
  username : string;
  password : string;
  name : string;
  email : string
}.

(** workouts (id, user_id, workout_type, duration, calories_burned) *)
Record Workout : Type := mkWorkout {
  w_id : Z;
  w_user_id : Z;
  workout_type : string;
  duration : Z;
  calories_burned : Z
}.

(** challenges (id, user_id, challenge_name, goal, challenge_type) *)
Record Challenge : Type := mkChallenge {
  c_id : Z;
  c_user_id : Z;
  challenge_name : string;
  goal : Z;
  challenge_type : string
}.

(** challenge_participants (user_id, challenge_id) *)
Record Participant : Type := mkParticipant {
  p_user_id : Z;
  challenge_id : Z
}.

Global Instance User_eq_dec : EqDecision User.
Proof. solve_decision. Defined.
Global Instance Workout_eq_dec : EqDecision Workout.
Proof. solve_decision. Defined.
Global Instance Challenge_eq_dec : EqDecision Challenge.
Proof. solve_decision. Defined.
Global Instance Participant_eq_dec : EqDecision Participant.
Proof. solve_decision. Defined.

(** The tables in insertion (rowid) order, and SQLite's
    [sqlite_sequence] table, which remembers per AUTOINCREMENT table
    the largest id handed out so far. *)
Record Store : Type := mkStore {
  users : list User;
  workouts : list Workout;
  challenges : list Challenge;
  challenge_participants : list Participant;
  sqlite_sequence : gmap string Z
}.

Definition empty : Store := mkStore [] [] [] [] ∅.

(** The id an AUTOINCREMENT column gives the next row: one more than
    the largest id that the table holds or ever held. *)
Definition max_id (ids : list Z) : Z := foldr Z.max 0 ids.

Definition next_id (s : Store) (table : string) (ids : list Z) : Z :=
  Z.max (default 0 (sqlite_sequence s !! table)) (max_id ids) + 1.

(** What the schema enforces on the users table: [id] is the primary
    key and [username] is UNIQUE. *)
Definition wf (s : Store) : Prop :=
  NoDup (u_id <$> users s) ∧ NoDup (username <$> users s).

(** [SELECT * FROM users] row. *)
Definition user_tuple (u : User) : tuple :=
  [VInt (u_id u); VStr (username u); VStr (password u);
   VStr (name u); VStr (email u)].

(** [SELECT username, name, email FROM users] row. *)
Definition user_identity_tuple (u : User) : tuple :=
  [VStr (username u); VStr (name u); VStr (email u)].

End Db.

Import Db.

(** [cursor.fetchone()]: the first row of the result, or [None]. *)
Definition fetchone {A} (rows : list A) : option A := head rows.

(* ================================================================== *)
(** ** Authentication functions *)

(** [SELECT * FROM users WHERE username = ?] then [fetchone()]. *)
Definition check_user (s : Store) (uname : string) : option tuple :=
  fetchone (user_tuple <$> filter (λ u, username u = uname) (users s)).

(** [INSERT INTO users (username, password, name, email)]: the UNIQUE
    constraint on [username] rejects a second row with the same name;
    otherwise the row is appended under a fresh id. *)
Definition add_user (s : Store) (uname pw nm em : string) : result Store :=
  if decide (uname ∈ username <$> users s) then Raise IntegrityError
  else
    let i := next_id s "users" (u_id <$> users s) in
    Ok (mkStore (users s ++ [mkUser i uname pw nm em])
                (workouts s) (challenges s) (challenge_participants s)
                (<["users" := i]> (sqlite_sequence s))).

(** [if user and user[2] == password: return user] / [return None].
    The right operand of [and] is evaluated only when the left one is
    truthy. *)
Definition verify_user (s : Store) (uname pw : string)
  : result (option tuple) :=
  let user := check_user s uname in
  cond ← (if truthy user
          then stored ← getitem user 2; mret (Py.eqb stored (VStr pw))
          else mret false);
  mret (if cond : bool then user else None).

(** [UPDATE users SET password = ? WHERE username = ?]. *)
Definition set_password (pw : string) (u : User) : User :=
  mkUser (u_id u) (username u) pw (name u) (email u).

Definition reset_password (s : Store) (uname new_password : string) : Store :=
  mkStore ((λ u, if decide (username u = uname)
                 then set_password new_password u else u) <$> users s)
          (workouts s) (challenges s) (challenge_participants s)
          (sqlite_sequence s).

(* ================================================================== *)
(** ** Workout and challenge functions

    The foreign keys of the schema are declared only: the connection
    never switches [PRAGMA foreign_keys] on, so no insert below looks at
    another table. *)

(** [INSERT INTO workouts (user_id, workout_type, duration, calories_burned)]. *)
Definition log_workout (s : Store) (user_id : Z) (wtype : string)
    (dur cal : Z) : Store :=
  let i := next_id s "workouts" (w_id <$> workouts s) in
  mkStore (users s)
          (workouts s ++ [mkWorkout i user_id wtype dur cal])
          (challenges s) (challenge_participants s)
          (<["workouts" := i]> (sqlite_sequence s)).

(** [INSERT INTO challenges (user_id, challenge_name, goal, challenge_type)]. *)
Definition create_challenge (s : Store) (user_id : Z) (cname : string)
    (g : Z) (ctype : string) : Store :=
  let i := next_id s "challenges" (c_id <$> challenges s) in
  mkStore (users s) (workouts s)
          (challenges s ++ [mkChallenge i user_id cname g ctype])
          (challenge_participants s)
          (<["challenges" := i]> (sqlite_sequence s)).

(** [INSERT INTO challenge_participants (user_id, challenge_id)]. *)
Definition join_challenge (s : Store) (user_id cid : Z) : Store :=
  mkStore (users s) (workouts s) (challenges s)
          (challenge_participants s ++ [mkParticipant user_id cid])
          (sqlite_sequence s).

(* ================================================================== *)
(** ** Aggregation *)

Definition sum_Z (l : list Z) : Z := foldr Z.add 0 l.

(** The sum of the second component per first component, as a number:
    what [GROUP BY k] with [SUM(v)] and [groupby(k)[v].sum()] compute
    as long as nothing overflows. *)
Definition group_sum (rows : list (string * Z)) : gmap string Z :=
  foldr (λ r acc, <[r.1 := default 0 (acc !! r.1) + r.2]> acc) ∅ rows.

(** Grouping as it is run: the rows are visited in order and each is
    folded into the accumulator of its key. *)
Definition group_by_fold {A B} (step : A → B → A) (init : A)
    (rows : list (string * B)) : gmap string A :=
  foldl (λ acc r, <[r.1 := step (default init (acc !! r.1)) r.2]> acc) ∅ rows.

(** [Series.sum()] of an int64 column: every addition wraps.  (Of an
    empty frame it is 0.) *)
Definition pandas_sum (l : list Z) : Z :=
  foldl (λ acc x, wrap64 (acc + x)) 0 l.

(** pandas' [groupby(k)[v].sum()] on an int64 column. *)
Definition pandas_group_sum (rows : list (string * Z)) : gmap string Z :=
  group_by_fold (λ acc x, wrap64 (acc + x)) 0 rows.

(** SQLite's [SUM] over integers: the accumulator of a group is its
    running total, or [None] once an addition has overflowed. *)
Definition sum_step (acc : option Z) (v : Z) : option Z :=
  a ← acc; add_int64 a v.

(** [GROUP BY k] with [SUM(v)]: a group whose total overflowed makes the
    statement fail with "integer overflow". *)
Definition sql_group_sum (rows : list (string * Z)) : result (gmap string Z) :=
  let groups := group_by_fold sum_step (Some 0) rows in
  if decide (map_Forall (λ _ total, is_Some total) groups)
  then Ok (omap id groups)
  else Raise OperationalError.

(** Number of rows per key: pandas' [value_counts()]. *)
Definition value_counts (keys : list string) : gmap string nat :=
  foldr (λ k acc, <[k := S (default 0%nat (acc !! k))]> acc) ∅ keys.

(** [FROM workouts JOIN users ON workouts.user_id = users.id], projected
    on [(users.username, workouts.calories_burned)]. *)
Definition joined (s : Store) : list (string * Z) :=
  w ← workouts s;
  u ← filter (λ u, u_id u = w_user_id w) (users s);
  [(username u, calories_burned w)].

(** [ORDER BY total_calories DESC]: [a] may precede [b]. *)
Definition by_total_desc (a b : string * Z) : Prop := b.2 ≤ a.2.

Global Instance by_total_desc_dec : RelDecision by_total_desc.
Proof. intros a b. unfold by_total_desc. apply _. Defined.

(** The leaderboard query.  The rows of a group are summed in the order
    of the join, workouts by rowid; rows with equal totals come out in
    the order the grouping step yields them.  SQL leaves both open. *)
Definition leaderboard (s : Store) : result (list (string * Z)) :=
  totals ← sql_group_sum (joined s);
  mret (merge_sort by_total_desc (map_to_list totals)).

(** [SELECT workout_type, duration, calories_burned FROM workouts
     WHERE user_id = ?] then [fetchall()]. *)
Definition workout_rows (s : Store) (user_id : Z) : list (string * Z * Z) :=
  (λ w, (workout_type w, duration w, calories_burned w))
    <$> filter (λ w, w_user_id w = user_id) (workouts s).

(** Columns of the DataFrame built from those rows. *)
Definition col_workout (df : list (string * Z * Z)) : list string := (λ r, r.1.1) <$> df.
Definition col_duration (df : list (string * Z * Z)) : list Z := (λ r, r.1.2) <$> df.
Definition col_calories (df : list (string * Z * Z)) : list Z := (λ r, r.2) <$> df.

(* ================================================================== *)
(** ** What the pages render *)

Inductive widget : Type :=
| st_balloons
| st_title (s : string)
| st_header (s : string)
| st_subheader (s : string)
| st_write (s : string)
| st_markdown (s : string)
| st_info (s : string)
| st_success (s : string)
| st_warning (s : string)
| st_error (s : string)
| st_metric (label : string) (v : Z)
| st_bar_chart (series : gmap string Z)
| st_line_chart (ys : list Z)
| st_pyplot_pie (counts : gmap string nat)
| st_dataframe (df : list (string * Z * Z))
| st_download (file : string).   (* the link [generate_report] renders from the bytes of [file] *)

(** The [align] argument of [cell]. *)
Inductive align : Type :=
| align_default   (* left out *)
| align_C.

(** The calls made on the FPDF object, in order. *)
Inductive pdf_op : Type :=
| add_page
| set_font (family : string) (size : Z)
| cell (w h : Z) (txt : string) (a : align)   (* always with [ln=True] *)
| ln (h : Z).

Record report : Type := mkReport {
  filepath : string;
  pdf : list pdf_op
}.

(** [enumerate(leaderboard, 1)] and one [st.write] per entry. *)
Fixpoint leaderboard_lines (i : Z) (entries : list (string * Z)) : list widget :=
  match entries with
  | [] => []
  | e :: rest =>
      st_write (pretty i +:+ ". " +:+ e.1 +:+ " - " +:+ pretty e.2 +:+ " calories burned")
        :: leaderboard_lines (i + 1) rest
  end.

Definition display_leaderboard (s : Store) : result (list widget) :=
  entries ← leaderboard s;
  mret (st_subheader "Leaderboard" :: leaderboard_lines 1 entries).

(** One line of the workout log of the report. *)
Definition log_line (r : string * Z * Z) : pdf_op :=
  cell 200 10 (r.1.1 +:+ " - " +:+ pretty r.1.2 +:+ " min - " +:+ pretty r.2 +:+ " cal") align_default.

(** The text of a call, if it draws any. *)
Definition cell_text (op : pdf_op) : option string :=
  match op with
  | cell _ _ txt _ => Some txt
  | _ => None
  end.

(** [pdf.output(filepath)]: with the built-in font every text drawn must
    be in Latin-1, or no file is written. *)
Definition output (ops : list pdf_op) : result (list pdf_op) :=
  if forallb latin1 (omap cell_text ops) then Ok ops
  else Raise UnicodeEncodeError.

Definition generate_report (s : Store) (user_id : Z) : result report :=
  let user := fetchone (user_identity_tuple <$> filter (λ u, u_id u = user_id) (users s)) in
  let df := workout_rows s user_id in
  let total_duration := pandas_sum (col_duration df) in
  let total_calories := pandas_sum (col_calories df) in
  let head := [add_page; set_font "Arial" 12;
               cell 200 10 "Fitness Report" align_C; ln 10] in
  nm ← getitem user 1;
  un ← getitem user 0;
  em ← getitem user 2;
  let identity := [cell 200 10 ("Name: " +:+ fmt nm) align_default;
                   cell 200 10 ("Username: " +:+ fmt un) align_default;
                   cell 200 10 ("Email: " +:+ fmt em) align_default; ln 10] in
  let totals := [cell 200 10 ("Total Workouts: " +:+ pretty (Z.of_nat (length df))) align_default;
                 cell 200 10 ("Total Duration: " +:+ pretty total_duration +:+ " min") align_default;
                 cell 200 10 ("Total Calories Burned: " +:+ pretty total_calories) align_default;
                 ln 10] in
  let log := [cell 200 10 "Workout Log:" align_default; ln 5] ++ (log_line <$> df) in
  written ← output (head ++ identity ++ totals ++ log);
  mret (mkReport ("fitness_report_user_" +:+ pretty user_id +:+ ".pdf") written).

(** The dashboard (the second definition of [user_dashboard] in the
    file, which is the one in force).  [clicked] is the state of the
    "Generate & Download Report" button. *)
Definition user_dashboard (s : Store) (user_id : Z) (clicked : bool)
  : result (list widget) :=
  let top := [st_balloons; st_header "🏋️‍♀️ Your Fitness Dashboard"] in
  let data := workout_rows s user_id in
  match data with
  | [] => mret (top ++ [st_info "You haven't logged any workouts yet."])
  | _ :: _ =>
      let df := data in
      let body :=
        [st_metric "Total Workouts" (Z.of_nat (length df));
         st_metric "Total Duration (min)" (pandas_sum (col_duration df));
         st_metric "Total Calories Burned" (pandas_sum (col_calories df));
         st_subheader "Calories Burned by Workout Type";
         st_bar_chart (pandas_group_sum ((λ r, (r.1.1, r.2)) <$> df));
         st_subheader "Workout Duration Trend";
         st_line_chart (col_duration df);
         st_subheader "Workout Type Distribution";
         st_pyplot_pie (value_counts (col_workout df));
         st_subheader "Workout History";
         st_dataframe df;
         st_markdown "### 📥 Export Your Report"] in
      if clicked then
        r ← generate_report s user_id;
        mret (top ++ body ++
              [st_download (filepath r);
               st_success "Report ready for download! ✅"; st_balloons])
      else mret (top ++ body)
  end.

(* ================================================================== *)
(** ** Pages that change the store *)

(** The Signup branch of [main] once "Sign Up" is pressed. *)
Definition signup (s : Store) (uname pw nm em : string)
  : result (Store * list widget) :=
  if truthy (check_user s uname)
  then mret (s, [st_error "Username already exists!"])
  else
    s' ← add_user s uname pw nm em;
    mret (s', [st_success "Account created! You can now login."]).

(** The Forgot Password branch of [main] once "Reset Password" is
    pressed. *)
Definition forgot_password (s : Store) (uname new_password confirm_password : string)
  : Store * list widget :=
  if negb (truthy (check_user s uname))
  then (s, [st_error "🚫 Username not found!"])
  else if negb (bool_decide (new_password = confirm_password))
  then (s, [st_warning "⚠️ Passwords do not match."])
  else (reset_password s uname new_password,
        [st_success "✅ Password reset successfully! You can now login."]).

Section Pages.

(** [st.number_input(label, min_value=m)]: the value the widget holds
    after the visitor typed [v].  Streamlit never hands back a value
    below [min_value]. *)
Variable number_input : Z → Z → Z.
Hypothesis number_input_min : ∀ m v, m ≤ number_input m v.

(** [workout_page]: [sel] is the workout type selected, [d] and [c]
    what was typed into the two number inputs, [clicked] the state of
    the "Log Workout" button. *)
Definition workout_page (s : Store) (user_id : Z) (sel : string)
    (d c : Z) (clicked : bool) : Store * list widget :=
  let wtype := sel in
  let dur := number_input 1 d in
  let calories := number_input 0 c in
  if clicked
  then (log_workout s user_id wtype dur calories,
        [st_title "Log Your Workout"; st_success (wtype +:+ " workout logged!")])
  else (s, [st_title "Log Your Workout"]).

(** The two challenges offered for joining are fixed in the code. *)
Definition offered : list (Z * string * Z) :=
  [(1, "Running Challenge", 100); (2, "Cycling Challenge", 50)].

(** The button pressed on the Challenges page. *)
Inductive challenge_button : Type :=
| CreateButton
| JoinButton (cid : Z).

Global Instance challenge_button_eq_dec : EqDecision challenge_button.
Proof. solve_decision. Defined.

(** [challenge_page]: [cname], [g] and [ctype] are the contents of the
    three inputs, [pressed] the button pressed in this run, if any. *)
Definition challenge_page (s : Store) (user_id : Z) (cname : string)
    (g : Z) (ctype : string) (pressed : option challenge_button)
  : Store * list widget :=
  let gl := number_input 1 g in
  let created :=
    if bool_decide (pressed = Some CreateButton)
    then (create_challenge s user_id cname gl ctype,
          [st_title "Fitness Challenges";
           st_success ("Challenge '" +:+ cname +:+ "' created!")])
    else (s, [st_title "Fitness Challenges"]) in
  foldl (λ acc ch,
           let line := st_write (ch.1.2 +:+ " - Goal: " +:+ pretty ch.2) in
           if bool_decide (pressed = Some (JoinButton ch.1.1))
           then (join_challenge acc.1 user_id ch.1.1,
                 acc.2 ++ [line; st_success ("You joined " +:+ ch.1.2 +:+ "!")])
           else (acc.1, acc.2 ++ [line]))
        (created.1, created.2 ++ [st_subheader "Join Existing Challenges"])
        offered.

(** What a visitor does on the pages that can change the store. *)
Inductive action : Type :=
| SignUp (uname pw nm em : string)
| ResetPassword (uname new_password confirm_password : string)
| LogWorkout (user_id : Z) (sel : string) (d c : Z)
| Challenges (user_id : Z) (cname : string) (g : Z) (ctype : string)
             (pressed : option challenge_button).

Definition step (s : Store) (a : action) : Store :=
  match a with
  | SignUp uname pw nm em =>
      match signup s uname pw nm em with
      | Ok (s', _) => s'
      | Raise _ => s
      end
  | ResetPassword uname pw pw' => (forgot_password s uname pw pw').1
  | LogWorkout uid sel d c => (workout_page s uid sel d c true).1
  | Challenges uid cname g ctype pressed =>
      (challenge_page s uid cname g ctype pressed).1
  end.

Definition run (s : Store) (acts : list action) : Store :=
  foldl step s acts.

End Pages.

(* ================================================================== *)
(** ** The read-only pages *)

(** Sums of the two numeric columns per workout type:
    [df.groupby("Workout Type").sum()], one pair (duration, calories)
    per type. *)
Definition group_sum_frame (df : list (string * Z * Z)) : gmap string (Z * Z) :=
  group_by_fold (λ acc x, (wrap64 (acc.1 + x.1), wrap64 (acc.2 + x.2))) (0, 0)
                ((λ r, (r.1.1, (r.1.2, r.2))) <$> df).

(** The Plotly Express figures of the Visualizations page, each with
    the data it is built from. *)
Inductive figure : Type :=
| px_bar (frame : gmap string (Z * Z)) (title : string)   (* x = type, y = calories *)
| px_box (df : list (string * Z * Z)) (title : string)    (* x = type, y = duration *)
| px_scatter (df : list (string * Z * Z)) (title : string) (* x = duration, y = size = calories *)
| px_pie (names : list string) (title : string).

(** What a whole run of the script shows: the widgets of the pages, in
    the main area or the sidebar, and the elements only [main],
    [show_challenge_progress] and [visualizations_page] use. *)
Inductive element : Type :=
| main_area (w : widget)
| sidebar (w : widget)
| st_image (url : string)
| st_caption (s : string)
| st_progress (achieved gl : Z)   (* the quotient [achieved / goal] *)
| st_plotly_chart (fig : figure).

(** The fixed list of [show_challenge_progress]: name, goal, achieved. *)
Definition progress_challenges : list (string * Z * Z) :=
  [("10K Run", 10000, 3000); ("500 Pushups", 500, 120)].

Definition show_challenge_progress (user_id : Z) : list element :=
  main_area (st_subheader "Your Challenge Progress")
  :: (ch ← progress_challenges;
      [main_area (st_write ("**" +:+ ch.1.1 +:+ "**"));
       st_progress ch.2 ch.1.2;
       st_caption (pretty ch.2 +:+ " out of " +:+ pretty ch.1.2 +:+ " completed")]).

Definition visualizations_page (s : Store) (user_id : Z) : list element :=
  let data := workout_rows s user_id in
  main_area (st_title "📊 Workout Visualizations")
  :: match data with
     | [] => [main_area (st_info "No workout data available to visualize.")]
     | _ :: _ =>
         let df := data in
         [main_area (st_subheader "Calories Burned by Workout Type");
          st_plotly_chart (px_bar (group_sum_frame df)
                                  "Total Calories Burned by Workout Type");
          main_area (st_subheader "Workout Duration by Type");
          st_plotly_chart (px_box df "Distribution of Workout Durations");
          main_area (st_subheader "Calories vs Duration");
          st_plotly_chart (px_scatter df "Calories Burned vs Duration");
          main_area (st_subheader "Workout Count per Type");
          st_plotly_chart (px_pie (col_workout df) "Workout Count per Type")]
     end.

(* ================================================================== *)
(** ** [main]: one run of the script *)

(** [st.session_state]. *)
Record Session : Type := mkSession {
  ss_logged_in : bool;
  ss_user : option tuple
}.

(** The sidebar menu of a visitor who is not logged in, with what is
    typed into the form of the chosen entry and whether its button is
    pressed. *)
Inductive menu_input : Type :=
| MenuHome
| MenuLogin (uname pw : string) (pressed : bool)
| MenuSignup (uname pw nm em : string) (pressed : bool)
| MenuForgotPassword (uname new_password confirm_password : string)
                     (pressed : bool).

Section Main.

Variable number_input : Z → Z → Z.

(** The navigation radio of a logged-in visitor, with the inputs of the
    chosen page. *)
Inductive nav_input : Type :=
| NavDashboard (report_clicked : bool)
| NavLogWorkout (sel : string) (d c : Z) (clicked : bool)
| NavChallenges (cname : string) (g : Z) (ctype : string)
                (pressed : option challenge_button)
| NavLeaderboard
| NavVisualizations.

(** The state of the widgets in the browser for one run. *)
Record widgets : Type := mkWidgets {
  choice : menu_input;
  logout : bool;
  nav : nav_input
}.

(** What one run leaves behind: the store, the session, what was
    rendered, and whether the run ended in [st.rerun()]. *)
Record outcome : Type := mkOutcome {
  o_store : Store;
  o_session : Session;
  o_page : list element;
  o_rerun : bool
}.

Definition banner : list element :=
  [st_image "https://images.unsplash.com/photo-1599058917212-d6d6dfc82686";
   main_area (st_markdown "<h2 style='text-align:center;'>Get Fit, Stay Motivated 💪</h2>");
   main_area (st_title "Fitness Tracker")].

(** The branch of a visitor who is not logged in. *)
Definition main_logged_out (s : Store) (ss : Session) (c : menu_input)
  : result outcome :=
  match c with
  | MenuHome =>
      mret (mkOutcome s ss
              (banner ++ [main_area (st_subheader "Welcome to the Fitness App!");
                          main_area (st_write "Track your workouts, participate in challenges, and stay motivated.")])
              false)
  | MenuLogin uname pw pressed =>
      let top := banner ++ [main_area (st_subheader "Login")] in
      if pressed then
        user ← verify_user s uname pw;
        if truthy user
        then mret (mkOutcome s (mkSession true user)
                     (top ++ [main_area (st_success "Logged in successfully!")])
                     true)
        else mret (mkOutcome s ss
                     (top ++ [main_area (st_error "Invalid username or password")])
                     false)
      else mret (mkOutcome s ss top false)
  | MenuSignup uname pw nm em pressed =>
      let top := banner ++ [main_area (st_subheader "Create Account")] in
      if pressed then
        r ← signup s uname pw nm em;
        mret (mkOutcome r.1 ss (top ++ (main_area <$> r.2)) false)
      else mret (mkOutcome s ss top false)
  | MenuForgotPassword uname new_password confirm_password pressed =>
      let top := banner ++ [main_area (st_subheader "🔑 Reset Password")] in
      if pressed then
        let r := forgot_password s uname new_password confirm_password in
        mret (mkOutcome r.1 ss (top ++ (main_area <$> r.2)) false)
      else mret (mkOutcome s ss top false)
  end.

(** The page a logged-in visitor navigated to. *)
Definition main_page (s : Store) (user_id : Z) (n : nav_input)
  : result (Store * list element) :=
  match n with
  | NavDashboard report_clicked =>
      out ← user_dashboard s user_id report_clicked;
      mret (s, (main_area <$> (out : list widget)) ++ show_challenge_progress user_id)
  | NavLogWorkout sel d c clicked =>
      let r := workout_page number_input s user_id sel d c clicked in
      mret (r.1, main_area <$> r.2)
  | NavChallenges cname g ctype pressed =>
      let r := challenge_page number_input s user_id cname g ctype pressed in
      mret (r.1, main_area <$> r.2)
  | NavLeaderboard =>
      out ← display_leaderboard s;
      mret (s, main_area <$> (out : list widget))
  | NavVisualizations => mret (s, visualizations_page s user_id)
  end.

(** The branch of a logged-in visitor.  [st.rerun()] after a logout ends
    the run before any page is drawn. *)
Definition main_logged_in (s : Store) (ss : Session) (w : widgets)
  : result outcome :=
  nm ← getitem (ss_user ss) 3;
  let side := [sidebar (st_success ("Welcome, " +:+ fmt nm +:+ "! 👋"))] in
  if logout w
  then mret (mkOutcome s (mkSession false None) (banner ++ side) true)
  else
    uid ← getitem (ss_user ss) 0;
    match uid with
    | VInt user_id =>
        r ← main_page s user_id (nav w);
        mret (mkOutcome r.1 ss (banner ++ side ++ r.2) false)
    | VStr _ => Raise TypeError   (* never stored: column 0 of a users row is its integer id *)
    end.

(** [main].  [state] is [None] on the first run of a browser session,
    when the two keys are not yet in [st.session_state]. *)
Definition main (s : Store) (state : option Session) (w : widgets)
  : result outcome :=
  let ss := default (mkSession false None) state in
  if negb (ss_logged_in ss)
  then main_logged_out s ss (choice w)
  else main_logged_in s ss w.


End Main.

(* ================================================================== *)
(** ** Sample stores *)

(** Streamlit's number input as the browser behaves: a typed value is
    taken when it lies between the minimum and the largest integer the
    widget holds, 2^53 - 1; otherwise the widget hands back its
    default, the minimum. *)
Definition clamp (m v : Z) : Z :=
  if decide (m ≤ v ≤ 2 ^ 53 - 1) then v else m.

(** alice signs up, then logs a run and a ride. *)
Definition alice_store : Store :=
  run clamp Db.empty
    [SignUp "alice" "pw" "Alice" "alice@example.org";
     LogWorkout 1 "Running" 30 300;
     LogWorkout 1 "Cycling" 20 150].

(** alice has signed up and logged nothing yet. *)
Definition signed_up_store : Store :=
  run clamp Db.empty [SignUp "alice" "pw" "Alice" "alice@example.org"].

(** alice has logged two workouts of 2^62 calories each, by
    [log_workout]; each number is an SQLite INTEGER, their sum is not. *)
Definition overflow_store : Store :=
  log_workout (log_workout signed_up_store 1 "Running" 60 (2 ^ 62))
              1 "Running" 60 (2 ^ 62).

(** Зоя has signed up under her name in Cyrillic and logged nothing. *)
Definition zoya_store : Store :=
  run clamp Db.empty [SignUp "zoya" "pw" "Зоя" "zoya@example.org"].

(** Two users with 500 and 800 calories, and a third who logged nothing. *)
Definition two_user_store : Store :=
  run clamp Db.empty
    [SignUp "ann" "a" "Ann" "ann@example.org";
     SignUp "bob" "b" "Bob" "bob@example.org";
     SignUp "cat" "c" "Cat" "cat@example.org";
     LogWorkout 1 "Running" 40 500;
     LogWorkout 2 "Cycling" 30 300;
     LogWorkout 2 "Yoga" 60 500].

(* ================================================================== *)
(** ** The properties in words of the store and of what is rendered *)

(** Every workout row has a duration of at least one minute and
    non-negative calories. *)
Definition workouts_ok (s : Store) : Prop :=
  ∀ w, w ∈ workouts s → 1 ≤ duration w ∧ 0 ≤ calories_burned w.




(** The rows the leaderboard query joins carry no negative calories,
    and no username's total exceeds the largest 64-bit integer. *)
Definition totals_fit (s : Store) : Prop :=
  (∀ p, p ∈ joined s → 0 ≤ p.2)
  ∧ ∀ n, sum_Z (filter (λ p, p.1 = n) (joined s)).*2 ≤ int64_max.

(** The texts of a user and of a frame of workouts that the report
    draws are all in Latin-1. *)
Definition report_text_ok (u : User) (df : list (string * Z * Z)) : bool :=
  latin1 (name u) && latin1 (username u) && latin1 (email u)
  && forallb latin1 (col_workout df).

(** The calls the report makes on the FPDF object for a user row and
    the frame of that user's workouts. *)
Definition report_calls (u : User) (df : list (string * Z * Z)) : list pdf_op :=
  [add_page; set_font "Arial" 12;
   cell 200 10 "Fitness Report" align_C; ln 10]
  ++ [cell 200 10 ("Name: " +:+ name u) align_default;
      cell 200 10 ("Username: " +:+ username u) align_default;
      cell 200 10 ("Email: " +:+ email u) align_default; ln 10]
  ++ [cell 200 10 ("Total Workouts: " +:+ pretty (Z.of_nat (length df)))
           align_default;
      cell 200 10 ("Total Duration: " +:+ pretty (pandas_sum (col_duration df))
                   +:+ " min") align_default;
      cell 200 10 ("Total Calories Burned: "
                   +:+ pretty (pandas_sum (col_calories df))) align_default;
      ln 10]
  ++ [cell 200 10 "Workout Log:" align_default; ln 5] ++ (log_line <$> df).

(** The calories of the workouts logged under a user id. *)
Definition user_calories (s : Store) (user_id : Z) : Z :=
  sum_Z (col_calories (workout_rows s user_id)).

(** The keys of the schema: ids are unique in their table, and so are
    usernames. *)
Definition keys_unique (s : Store) : Prop :=
  NoDup (u_id <$> users s) ∧ NoDup (username <$> users s)
  ∧ NoDup (w_id <$> workouts s) ∧ NoDup (c_id <$> challenges s).

(** Every challenge has a goal of at least 1, and every membership row
    names one of the two challenges offered for joining. *)
Definition challenges_ok (s : Store) : Prop :=
  (∀ c, c ∈ challenges s → 1 ≤ goal c)
  ∧ (∀ p, p ∈ challenge_participants s → challenge_id p = 1 ∨ challenge_id p = 2).

(** [s'] holds every row of [s], in place: rows were at most added at
    the end of a table, and of a user row at most the password changed. *)
Definition grown_from (s s' : Store) : Prop :=
  (λ u, (u_id u, username u, name u, email u)) <$> users s
    `prefix_of` (λ u, (u_id u, username u, name u, email u)) <$> users s'
  ∧ workouts s `prefix_of` workouts s'
  ∧ challenges s `prefix_of` challenges s'
  ∧ challenge_participants s `prefix_of` challenge_participants s'.


(** Settles a decidable statement about concrete data by evaluation. *)
Ltac decide_by_compute :=
  apply (bool_decide_unpack _); vm_compute; exact I.

(* ================================================================== *)
(** ** Lookup by username *)

Lemma check_user_filter s uname :
  check_user s uname
  = user_tuple <$> head (filter (λ u, username u = uname) (users s)).
Proof.
  unfold check_user, fetchone.
  by destruct (filter _ (users s)).
Qed.

Lemma check_user_None s uname :
  check_user s uname = None ↔ uname ∉ username <$> users s.
Proof.
  rewrite check_user_filter, list_elem_of_fmap.
  destruct (filter _ (users s)) as [|u l] eqn:E; simpl; split.
  - intros _ (u & -> & Hu).
    assert (u ∈ filter (λ u0, username u0 = username u) (users s)) as Hin
      by (apply list_elem_of_filter; done).
    rewrite E in Hin. by apply not_elem_of_nil in Hin.
  - done.
  - done.
  - intros Hno. exfalso. apply Hno. exists u.
    assert (u ∈ filter (λ u0, username u0 = uname) (users s)) as Hin
      by (rewrite E; left).
    apply list_elem_of_filter in Hin as [-> Hin]. done.
Qed.

Lemma check_user_Some s uname t :
  check_user s uname = Some t →
  ∃ u, u ∈ users s ∧ username u = uname ∧ t = user_tuple u.
Proof.
  rewrite check_user_filter.
  destruct (filter _ (users s)) as [|u l] eqn:E; simpl; [done|].
  intros [= <-]. exists u.
  assert (u ∈ filter (λ u0, username u0 = uname) (users s)) as Hin
    by (rewrite E; left).
  apply list_elem_of_filter in Hin as [-> Hin]. done.
Qed.

Lemma filter_none {A} (P : A → Prop) `{∀ x, Decision (P x)} (l : list A) :
  (∀ x, x ∈ l → ¬ P x) → filter P l = [].
Proof.
  induction l as [|y l IH]; intros Hall; [done|].
  rewrite filter_cons, decide_False by (apply Hall; left).
  apply IH. intros x Hx. apply Hall. by right.
Qed.

(** With unique keys, a filter on the key finds the row and only it. *)
Lemma filter_key_unique {A K} `{EqDecision K} (key : A → K) (l : list A) (x : A) :
  NoDup (key <$> l) → x ∈ l →
  filter (λ y, key y = key x) l = [x].
Proof.
  induction l as [|y l IH]; simpl; intros Hnd Hin.
  - by apply not_elem_of_nil in Hin.
  - apply NoDup_cons in Hnd as [Hy Hnd].
    rewrite filter_cons. apply elem_of_cons in Hin as [->|Hin].
    + rewrite decide_True by done. f_equal.
      apply filter_none. intros z Hz Heq.
      apply Hy. rewrite <- Heq. by apply list_elem_of_fmap_2.
    + rewrite decide_False; [by apply IH|].
      intros Heq. apply Hy. rewrite Heq. by apply list_elem_of_fmap_2.
Qed.

Lemma check_user_unique s u :
  NoDup (username <$> users s) → u ∈ users s →
  check_user s (username u) = Some (user_tuple u).
Proof.
  intros Hnd Hin. rewrite check_user_filter.
  by rewrite (filter_key_unique username).
Qed.

Lemma truthy_check_user s uname :
  truthy (check_user s uname) = bool_decide (uname ∈ username <$> users s).
Proof.
  destruct (check_user s uname) as [t|] eqn:E.
  - apply check_user_Some in E as (u & Hu & <- & ->). simpl.
    symmetry. apply bool_decide_eq_true. by apply list_elem_of_fmap_2.
  - apply check_user_None in E. simpl.
    symmetry. by apply bool_decide_eq_false.
Qed.

Lemma user_tuple_inj u1 u2 : user_tuple u1 = user_tuple u2 → u1 = u2.
Proof. destruct u1, u2. unfold user_tuple. simpl. by intros [= -> -> -> -> ->]. Qed.

(** [verify_user] computes: it is the stored row when the password
    column equals the argument, and [None] otherwise. *)
Lemma verify_user_unfold s uname pw :
  verify_user s uname pw =
  Ok (match head (filter (λ u, username u = uname) (users s)) with
      | Some u => if decide (password u = pw) then Some (user_tuple u) else None
      | None => None
      end).
Proof.
  unfold verify_user. rewrite check_user_filter.
  destruct (head _) as [u|]; simpl; [|done].
  unfold Py.eqb. destruct (decide (password u = pw)) as [->|Hne].
  - by rewrite bool_decide_eq_true_2.
  - rewrite bool_decide_eq_false_2; [done|]. by intros [= ?].
Qed.

(* ================================================================== *)
(** ** Login *)

(** C5. Under the UNIQUE constraint on usernames, [verify_user] returns
    the stored row exactly when a row with that username exists and its
    password equals the supplied one, character for character; in every
    other case it returns [None].  It never raises. *)
Theorem verify_user_iff (s : Store) (uname pw : string) :
  NoDup (username <$> users s) →
  (∀ t, verify_user s uname pw = Ok (Some t) ↔
        ∃ u, u ∈ users s ∧ username u = uname ∧ password u = pw
             ∧ t = user_tuple u)
  ∧ ((¬ ∃ u, u ∈ users s ∧ username u = uname ∧ password u = pw) →
     verify_user s uname pw = Ok None).
Proof.
  intros Hnd. rewrite verify_user_unfold. split.
  - intros t. split.
    + destruct (head _) as [u|] eqn:E; [|done].
      destruct (decide (password u = pw)) as [Hpw|]; [|done].
      intros [= <-]. exists u. split_and!; try done.
      * apply head_Some_elem_of in E. by apply list_elem_of_filter in E as [_ ?].
      * apply head_Some_elem_of in E. by apply list_elem_of_filter in E as [? _].
    + intros (u & Hin & <- & <- & ->).
      rewrite (filter_key_unique username) by done. simpl.
      by rewrite decide_True.
  - intros Hno. destruct (head _) as [u|] eqn:E; [|done].
    destruct (decide (password u = pw)) as [Hpw|]; [|done].
    exfalso. apply Hno. exists u.
    apply head_Some_elem_of, list_elem_of_filter in E as [? ?]. done.
Qed.

(** On [alice_store] the right password logs in, and the same password
    in another letter case does not. *)
Lemma verify_user_iff_witness :
  verify_user alice_store "alice" "pw"
    = Ok (Some [VInt 1; VStr "alice"; VStr "pw"; VStr "Alice";
                VStr "alice@example.org"])
  ∧ verify_user alice_store "alice" "PW" = Ok None.
Proof.
  assert (NoDup (username <$> users alice_store)) as Hnd
    by (vm_compute; apply NoDup_singleton).
  destruct (verify_user_iff alice_store "alice" "pw" Hnd) as [Hyes _].
  destruct (verify_user_iff alice_store "alice" "PW" Hnd) as [_ Hno].
  split.
  - apply Hyes.
    exists (mkUser 1 "alice" "pw" "Alice" "alice@example.org").
    split_and!; try reflexivity. vm_compute. left.
  - apply Hno. intros (u & Hin & _ & Hpw).
    vm_compute in Hin. apply list_elem_of_singleton in Hin. subst u.
    discriminate Hpw.
Defined.

(** C10. For a username with no row in the users table, [check_user]
    yields [None]; subscripting that [None] would raise [TypeError], yet
    [verify_user] returns [None] without raising, because the right
    operand of [and] is not evaluated. *)
Theorem verify_user_absent (s : Store) (uname pw : string) :
  uname ∉ username <$> users s →
  check_user s uname = None
  ∧ getitem (check_user s uname) 2 = Raise TypeError
  ∧ verify_user s uname pw = Ok None.
Proof.
  intros Habs. apply check_user_None in Habs.
  unfold verify_user. by rewrite Habs.
Qed.

Lemma verify_user_absent_witness :
("mallory" ∉ username <$> users alice_store)
  ∧ verify_user alice_store "mallory" "pw" = Ok None.
Proof.
  assert ("mallory" ∉ username <$> users alice_store) as Habs.
  { vm_compute. intros H. apply list_elem_of_singleton in H. discriminate H. }
  split; [exact Habs|].
  apply (verify_user_absent alice_store "mallory" "pw" Habs).
Defined.

(* ================================================================== *)
(** ** Signup *)

Lemma max_id_ge (ids : list Z) (x : Z) : x ∈ ids → x ≤ max_id ids.
Proof.
  induction ids as [|y ids IH]; intros Hx; [by apply not_elem_of_nil in Hx|].
  simpl. apply elem_of_cons in Hx as [->|Hx]; [lia|].
  specialize (IH Hx). lia.
Qed.

(** An AUTOINCREMENT id is new to its table. *)
Lemma next_id_fresh s table (ids : list Z) : next_id s table ids ∉ ids.
Proof. unfold next_id. intros Hin%max_id_ge. lia. Qed.

Lemma signup_unfold s uname pw nm em :
  signup s uname pw nm em =
  if decide (uname ∈ username <$> users s)
  then Ok (s, [st_error "Username already exists!"])
  else Ok (mkStore
             (users s ++ [mkUser (next_id s "users" (u_id <$> users s))
                                 uname pw nm em])
             (workouts s) (challenges s) (challenge_participants s)
             (<["users" := next_id s "users" (u_id <$> users s)]>
                (sqlite_sequence s)),
           [st_success "Account created! You can now login."]).
Proof.
  unfold signup, add_user. rewrite truthy_check_user.
  destruct (decide (uname ∈ username <$> users s)) as [Hin|Hout].
  - by rewrite bool_decide_eq_true_2.
  - by rewrite bool_decide_eq_false_2.
Qed.

(** C4. When a row with the username exists, signing up shows
    "Username already exists!" and leaves the store, hence the size of
    the users table, as it was; when none exists it appends exactly one
    row carrying the four values entered, and nothing is raised. *)
Theorem signup_duplicate_or_insert (s : Store) (uname pw nm em : string) :
  (uname ∈ username <$> users s →
     signup s uname pw nm em = Ok (s, [st_error "Username already exists!"]))
  ∧ (uname ∉ username <$> users s →
     ∃ s' i,
       signup s uname pw nm em
         = Ok (s', [st_success "Account created! You can now login."])
       ∧ users s' = users s ++ [mkUser i uname pw nm em]
       ∧ length (users s') = S (length (users s))
       ∧ i ∉ u_id <$> users s).
Proof.
  rewrite signup_unfold. split; intros H.
  - by rewrite decide_True.
  - rewrite decide_False by done. eexists _, _. split; [done|]. simpl.
    split; [done|]. split.
    + rewrite length_app. simpl. lia.
    + apply next_id_fresh.
Qed.

Lemma signup_duplicate_or_insert_witness :
  signup alice_store "alice" "other" "Al" "al@example.org"
    = Ok (alice_store, [st_error "Username already exists!"])
  ∧ ∃ s' i,
      signup alice_store "bob" "b" "Bob" "bob@example.org"
        = Ok (s', [st_success "Account created! You can now login."])
      ∧ users s' = users alice_store ++ [mkUser i "bob" "b" "Bob" "bob@example.org"]
      ∧ length (users s') = 2%nat.
Proof.
  split.
  - apply (signup_duplicate_or_insert alice_store "alice" "other" "Al" "al@example.org").
    vm_compute. left.
  - destruct (signup_duplicate_or_insert alice_store "bob" "b" "Bob" "bob@example.org")
      as [_ Hnew].
    destruct Hnew as (s' & i & H1 & H2 & H3 & _).
    + vm_compute. intros H. apply list_elem_of_singleton in H. discriminate H.
    + exists s', i. split_and!; [exact H1 | exact H2 | exact H3].
Defined.

(* ================================================================== *)
(** ** Password reset *)

(** C8. [reset_password] keeps the users table row for row: a row whose
    username matches gets the new password and keeps its id, username,
    name and email; any other row is untouched.  The other tables and
    the id counters are untouched. *)
Theorem reset_password_frame (s : Store) (uname new_password : string) :
  let s' := reset_password s uname new_password in
  length (users s') = length (users s)
  ∧ (∀ (i : nat) (u : User), users s !! i = Some u →
       (username u = uname →
          users s' !! i
            = Some (mkUser (u_id u) (username u) new_password (name u) (email u)))
       ∧ (username u ≠ uname → users s' !! i = Some u))
  ∧ workouts s' = workouts s
  ∧ challenges s' = challenges s
  ∧ challenge_participants s' = challenge_participants s
  ∧ sqlite_sequence s' = sqlite_sequence s.
Proof.
  simpl. split_and!; try done.
  - by rewrite length_fmap.
  - intros i u Hi. rewrite list_lookup_fmap, Hi. simpl. split; intros Hu.
    + by rewrite decide_True.
    + by rewrite decide_False.
Qed.

Lemma reset_password_frame_witness :
  users (reset_password two_user_store "bob" "new")
  = [mkUser 1 "ann" "a" "Ann" "ann@example.org";
     mkUser 2 "bob" "new" "Bob" "bob@example.org";
     mkUser 3 "cat" "c" "Cat" "cat@example.org"].
Proof.
  pose proof (reset_password_frame two_user_store "bob" "new") as (Hlen & Hrows & _).
  apply list_eq. intros [|[|[|i]]].
  - apply (Hrows 0%nat (mkUser 1 "ann" "a" "Ann" "ann@example.org")); [reflexivity|].
    discriminate.
  - apply (Hrows 1%nat (mkUser 2 "bob" "b" "Bob" "bob@example.org")); reflexivity.
  - apply (Hrows 2%nat (mkUser 3 "cat" "c" "Cat" "cat@example.org")); [reflexivity|].
    discriminate.
  - rewrite !lookup_ge_None_2; [done | simpl; lia | rewrite Hlen; vm_compute; lia].
Defined.

(* ================================================================== *)
(** ** Joining a challenge *)

(** Number of membership rows for one (user, challenge) pair. *)
Lemma memberships_app (l : list Participant) (p q : Participant) :
  length (filter (λ r, r = p) (l ++ [q]))
  = (length (filter (λ r, r = p) l) + (if decide (q = p) then 1 else 0))%nat.
Proof.
  rewrite filter_app, length_app. f_equal.
  rewrite filter_cons, filter_nil. by destruct (decide (q = p)).
Qed.

(** C7. [join_challenge] appends one row with the two ids it is given
    and nothing else changes.  It asks nothing of the store: the number
    of rows for that pair goes up by one whatever it was before, and the
    challenges table is never consulted. *)
Theorem join_challenge_inserts (s : Store) (user_id cid : Z) :
  let s' := join_challenge s user_id cid in
  challenge_participants s'
    = challenge_participants s ++ [mkParticipant user_id cid]
  ∧ length (challenge_participants s') = S (length (challenge_participants s))
  ∧ length (filter (λ r, r = mkParticipant user_id cid) (challenge_participants s'))
    = S (length (filter (λ r, r = mkParticipant user_id cid)
                        (challenge_participants s)))
  ∧ users s' = users s ∧ workouts s' = workouts s
  ∧ challenges s' = challenges s
  ∧ sqlite_sequence s' = sqlite_sequence s.
Proof.
  simpl. split_and!; try done.
  - rewrite length_app. simpl. lia.
  - rewrite memberships_app, decide_True by done. lia.
Qed.

(** Joining twice a challenge that does not exist leaves two equal rows. *)
Example join_challenge_twice_unknown :
  challenges Db.empty = []
  ∧ challenge_participants (join_challenge (join_challenge Db.empty 7 99) 7 99)
    = [mkParticipant 7 99; mkParticipant 7 99].
Proof. split; reflexivity. Qed.

(* ================================================================== *)
(** ** Grouped sums *)

Lemma sum_Z_app (l1 l2 : list Z) : sum_Z (l1 ++ l2) = sum_Z l1 + sum_Z l2.
Proof. unfold sum_Z. induction l1 as [|x l1 IH]; simpl; lia. Qed.

(** The total kept under a key is the sum over the rows with that key;
    keys without a row are absent. *)
Lemma group_sum_lookup {A} (key : A → string) (val : A → Z) (l : list A) (k : string) :
  group_sum ((λ x, (key x, val x)) <$> l) !! k
  = if decide (k ∈ key <$> l)
    then Some (sum_Z (val <$> filter (λ x, key x = k) l)) else None.
Proof.
  induction l as [|x l IH].
  - rewrite !fmap_nil.
    destruct (decide (k ∈ [])) as [Hin|_]; [by apply not_elem_of_nil in Hin|].
    apply lookup_empty.
  - rewrite !fmap_cons, filter_cons.
    change (group_sum ((key x, val x) :: ?r))
      with (<[key x := default 0 (group_sum r !! key x) + val x]> (group_sum r)).
    destruct (decide (key x = k)) as [<-|Hne].
    + rewrite lookup_insert_eq, IH.
      destruct (decide (key x ∈ key x :: (key <$> l))) as [_|Hout];
        [|exfalso; apply Hout; left].
      f_equal. rewrite fmap_cons.
      destruct (decide (key x ∈ key <$> l)) as [Hin|Hout]; unfold sum_Z; simpl.
      * apply Z.add_comm.
      * rewrite filter_none; [simpl; lia|].
        intros y Hy Heq. apply Hout. rewrite <- Heq. by apply list_elem_of_fmap_2.
    + rewrite lookup_insert_ne, IH by done.
      destruct (decide (k ∈ key <$> l)) as [Hin|Hout];
        destruct (decide (k ∈ key x :: (key <$> l))) as [Hin'|Hout']; try done.
      * exfalso. apply Hout'. by right.
      * apply elem_of_cons in Hin' as [->|?]; done.
Qed.

Lemma pair_eta_fmap {A B} (l : list (A * B)) : (λ p, (p.1, p.2)) <$> l = l.
Proof. induction l as [|[a b] l IH]; simpl; by f_equal. Qed.

Lemma group_sum_pairs (rows : list (string * Z)) (k : string) :
  group_sum rows !! k
  = if decide (k ∈ rows.*1)
    then Some (sum_Z (filter (λ p, p.1 = k) rows).*2) else None.
Proof.
  rewrite <- (pair_eta_fmap rows) at 1. apply (group_sum_lookup fst snd).
Qed.

(* ================================================================== *)
(** ** Sums as the code computes them *)

Lemma wrap64_in_range (z : Z) : in_int64 z → wrap64 z = z.
Proof.
  unfold in_int64, wrap64, int64_min, int64_max. intros Hz.
  rewrite Z.mod_small; lia.
Qed.

Lemma wrap64_add_l (a b : Z) : wrap64 (wrap64 a + b) = wrap64 (a + b).
Proof.
  unfold wrap64.
  replace ((a - int64_min) `mod` 2 ^ 64 + int64_min + b - int64_min)
    with ((a - int64_min) `mod` 2 ^ 64 + b) by lia.
  rewrite Zplus_mod_idemp_l. do 2 f_equal. lia.
Qed.

Lemma pandas_sum_from (a : Z) (l : list Z) :
  foldl (λ acc x, wrap64 (acc + x)) (wrap64 a) l = wrap64 (a + sum_Z l).
Proof.
  revert a. induction l as [|x l IH]; intros a; simpl.
  - unfold sum_Z. simpl. f_equal. lia.
  - rewrite wrap64_add_l, IH. f_equal. unfold sum_Z. simpl. lia.
Qed.

(** A pandas sum is the sum, wrapped. *)
Lemma pandas_sum_wrap (l : list Z) : pandas_sum l = wrap64 (sum_Z l).
Proof.
  unfold pandas_sum.
  change 0 with (wrap64 0) at 1. by rewrite pandas_sum_from.
Qed.


(** What a key holds after the rows are folded in: nothing new without
    a row of that key, otherwise the fold over the values of its rows. *)
Lemma group_by_fold_from {A B} (step : A → B → A) (init : A)
    (rows : list (string * B)) (acc : gmap string A) (k : string) :
  foldl (λ acc r, <[r.1 := step (default init (acc !! r.1)) r.2]> acc) acc rows !! k
  = if decide (k ∈ rows.*1)
    then Some (foldl step (default init (acc !! k))
                     (filter (λ p, p.1 = k) rows).*2)
    else acc !! k.
Proof.
  revert acc. induction rows as [|[k' v] rows IH]; intros acc.
  - rewrite fmap_nil. cbn [foldl].
    destruct (decide (k ∈ [])) as [Hin|_]; [|done].
    by apply not_elem_of_nil in Hin.
  - rewrite fmap_cons, filter_cons. cbn [foldl fst snd]. rewrite IH.
    destruct (decide (k' = k)) as [->|Hne].
    + rewrite lookup_insert_eq, fmap_cons. cbn [foldl snd default].
      destruct (decide (k ∈ k :: rows.*1)) as [_|Hout]; [|exfalso; apply Hout; left].
      destruct (decide (k ∈ rows.*1)) as [Hin|Hout]; [done|].
      rewrite filter_none; [done|].
      intros p Hp Heq. apply Hout. rewrite <- Heq. by apply list_elem_of_fmap_2.
    + rewrite lookup_insert_ne by done.
      destruct (decide (k ∈ rows.*1)) as [Hin|Hout];
        destruct (decide (k ∈ k' :: rows.*1)) as [Hin'|Hout']; try done.
      * exfalso. apply Hout'. by right.
      * apply elem_of_cons in Hin' as [?|?]; congruence.
Qed.

Lemma group_by_fold_lookup {A B} (step : A → B → A) (init : A)
    (rows : list (string * B)) (k : string) :
  group_by_fold step init rows !! k
  = if decide (k ∈ rows.*1)
    then Some (foldl step init (filter (λ p, p.1 = k) rows).*2)
    else None.
Proof.
  unfold group_by_fold. rewrite group_by_fold_from.
  by rewrite lookup_empty.
Qed.


Lemma sum_step_None (l : list Z) : foldl sum_step None l = None.
Proof. by induction l. Qed.

(** SQLite's running total, when there is one, is the sum. *)
Lemma sum_step_Some (a t : Z) (l : list Z) :
  foldl sum_step (Some a) l = Some t → t = a + sum_Z l.
Proof.
  revert a. induction l as [|x l IH]; intros a; simpl.
  - intros [= <-]. unfold sum_Z. simpl. lia.
  - unfold add_int64. destruct (decide (in_int64 (a + x))) as [_|_].
    + intros H. rewrite (IH _ H). lia.
    + by rewrite sum_step_None.
Qed.

Lemma sum_Z_nonneg (l : list Z) : (∀ x, x ∈ l → 0 ≤ x) → 0 ≤ sum_Z l.
Proof.
  unfold sum_Z. induction l as [|x l IH]; intros Hl; simpl; [lia|].
  assert (0 ≤ x) by (apply Hl; left).
  assert (0 ≤ foldr Z.add 0 l) by (apply IH; intros y Hy; apply Hl; by right).
  lia.
Qed.

(** Without negative values the running total overflows exactly when
    the sum exceeds the largest 64-bit integer. *)
Lemma sum_step_nonneg (a : Z) (l : list Z) :
  0 ≤ a ≤ int64_max → (∀ x, x ∈ l → 0 ≤ x) →
  foldl sum_step (Some a) l
  = if decide (a + sum_Z l ≤ int64_max) then Some (a + sum_Z l) else None.
Proof.
  revert a. induction l as [|x l IH]; intros a Ha Hl.
  - simpl. unfold sum_Z. simpl. rewrite Z.add_0_r.
    by rewrite decide_True by lia.
  - assert (0 ≤ x) by (apply Hl; left).
    assert (∀ y, y ∈ l → 0 ≤ y) as Hl' by (intros y Hy; apply Hl; by right).
    pose proof (sum_Z_nonneg l Hl') as Hsum.
    change (sum_Z (x :: l)) with (x + sum_Z l).
    simpl. unfold add_int64.
    destruct (decide (in_int64 (a + x))) as [Hin|Hout].
    + rewrite IH; [|unfold in_int64 in Hin; lia|done].
      destruct (decide (a + x + sum_Z l ≤ int64_max));
        destruct (decide (a + (x + sum_Z l) ≤ int64_max)); try lia; try done.
      f_equal. lia.
    + rewrite sum_step_None. rewrite decide_False; [done|].
      unfold in_int64, int64_min in Hout. lia.
Qed.

(** When [SUM] succeeds, every total is the sum of its group. *)
Lemma sql_group_sum_Ok (rows : list (string * Z)) (m : gmap string Z) :
  sql_group_sum rows = Ok m → m = group_sum rows.
Proof.
  unfold sql_group_sum. destruct (decide _) as [Hall|]; [|done].
  intros [= <-]. apply map_eq. intros k.
  rewrite lookup_omap, group_sum_pairs.
  pose proof (group_by_fold_lookup sum_step (Some 0) rows k) as Hk.
  destruct (decide (k ∈ rows.*1)) as [Hin|Hout]; rewrite Hk; [|done]. simpl.
  destruct (Hall k _ Hk) as [t Ht]. rewrite Ht. simpl. f_equal.
  apply sum_step_Some in Ht. lia.
Qed.

(** Without negative values [SUM] succeeds when no group's sum exceeds
    the largest 64-bit integer, and fails when one does. *)
Lemma sql_group_sum_fits (rows : list (string * Z)) :
  (∀ p, p ∈ rows → 0 ≤ p.2) →
  (∀ k, sum_Z (filter (λ p, p.1 = k) rows).*2 ≤ int64_max) →
  sql_group_sum rows = Ok (group_sum rows).
Proof.
  intros Hpos Hfit. unfold sql_group_sum.
  assert (∀ k, (∀ x, x ∈ (filter (λ p, p.1 = k) rows).*2 → 0 ≤ x)) as Hvals.
  { intros k x (p & -> & Hp)%list_elem_of_fmap.
    apply list_elem_of_filter in Hp as [_ Hp]. by apply Hpos. }
  assert (∀ k, k ∈ rows.*1 →
            group_by_fold sum_step (Some 0) rows !! k
            = Some (Some (sum_Z (filter (λ p, p.1 = k) rows).*2))) as Hlook.
  { intros k Hk. rewrite group_by_fold_lookup, decide_True by done.
    rewrite sum_step_nonneg; [|unfold int64_max; lia|apply Hvals].
    rewrite Z.add_0_l, decide_True by apply Hfit. done. }
  rewrite decide_True.
  - f_equal. apply map_eq. intros k. rewrite lookup_omap, group_sum_pairs.
    destruct (decide (k ∈ rows.*1)) as [Hin|Hout].
    + by rewrite (Hlook k Hin).
    + by rewrite group_by_fold_lookup, decide_False.
  - intros k t Hk.
    destruct (decide (k ∈ rows.*1)) as [Hin|Hout].
    + rewrite (Hlook k Hin) in Hk. injection Hk as <-. eauto.
    + by rewrite group_by_fold_lookup, decide_False in Hk.
Qed.

Lemma sql_group_sum_overflow (rows : list (string * Z)) (k : string) :
  (∀ p, p ∈ rows → 0 ≤ p.2) →
  int64_max < sum_Z (filter (λ p, p.1 = k) rows).*2 →
  sql_group_sum rows = Raise OperationalError.
Proof.
  intros Hpos Hbig. unfold sql_group_sum.
  assert (k ∈ rows.*1) as Hin.
  { destruct (decide (k ∈ rows.*1)) as [|Hout]; [done|exfalso].
    rewrite filter_none in Hbig.
    - unfold sum_Z, int64_max in Hbig. simpl in Hbig. lia.
    - intros p Hp Heq. apply Hout. rewrite <- Heq. by apply list_elem_of_fmap_2. }
  rewrite decide_False; [done|]. intros Hall.
  assert (group_by_fold sum_step (Some 0) rows !! k = Some None) as Hk.
  { rewrite group_by_fold_lookup, decide_True by done.
    rewrite sum_step_nonneg; [|unfold int64_max; lia|].
    - by rewrite Z.add_0_l, decide_False by lia.
    - intros x (p & -> & Hp)%list_elem_of_fmap.
      apply list_elem_of_filter in Hp as [_ Hp]. by apply Hpos. }
  by destruct (Hall k _ Hk).
Qed.

(* ================================================================== *)
(** ** Texts the report can draw *)

Lemma latin1_cons (c : Ascii.ascii) (s : string) :
  latin1 (String c s)
  = if is_ascii c then latin1 s
    else if is_latin1_lead c then
      match s with
      | String b rest => is_continuation b && latin1 rest
      | EmptyString => false
      end
    else false.
Proof. done. Qed.

Lemma append_cons (c : Ascii.ascii) (a b : string) :
  String c a +:+ b = String c (a +:+ b).
Proof. done. Qed.

Lemma latin1_ascii (s : string) : ascii_only s = true → latin1 s = true.
Proof.
  induction s as [|a s IH]; [done|].
  change (ascii_only (String a s)) with (is_ascii a && ascii_only s).
  rewrite latin1_cons.
  intros [Ha Hs]%andb_true_iff. rewrite Ha. by apply IH.
Qed.

Lemma ascii_only_app (a b : string) :
  ascii_only (a +:+ b) = ascii_only a && ascii_only b.
Proof.
  induction a as [|c a IH]; [done|].
  change (ascii_only (String c a +:+ b)) with (is_ascii c && ascii_only (a +:+ b)).
  change (ascii_only (String c a)) with (is_ascii c && ascii_only a).
  rewrite IH. by rewrite andb_assoc.
Qed.

Lemma ascii_not_continuation (a : Ascii.ascii) :
  is_ascii a = true → is_continuation a = false.
Proof.
  unfold is_ascii, is_continuation. intros Ha%Nat.ltb_lt.
  apply andb_false_iff. left. apply Nat.leb_gt. lia.
Qed.

(** After a text in Latin-1, what decides is the rest. *)
Lemma latin1_app (a b : string) :
  latin1 a = true → latin1 (a +:+ b) = latin1 b.
Proof.
  remember (String.length a) as n eqn:Hn. revert a Hn.
  induction (lt_wf n) as [n _ IH]. intros [|c a] Hn; [done|].
  rewrite append_cons, !latin1_cons. cbn [String.length] in Hn.
  destruct (is_ascii c).
  { apply (IH (String.length a)); [lia|done]. }
  destruct (is_latin1_lead c); [|intros [=]].
  destruct a as [|d a]; [intros [=]|].
  rewrite append_cons. cbn [String.length] in Hn.
  destruct (is_continuation d); [|intros [=]].
  cbn [andb]. apply (IH (String.length a)); [lia|done].
Qed.

(** Before ASCII text, what decides is the text in front. *)
Lemma latin1_app_ascii (a b : string) :
  ascii_only b = true → latin1 (a +:+ b) = latin1 a.
Proof.
  intros Hb.
  remember (String.length a) as n eqn:Hn. revert a Hn.
  induction (lt_wf n) as [n _ IH]. intros [|c a] Hn.
  { change ("" +:+ b) with b. by apply latin1_ascii. }
  rewrite append_cons, !latin1_cons. cbn [String.length] in Hn.
  destruct (is_ascii c).
  { apply (IH (String.length a)); [lia|done]. }
  destruct (is_latin1_lead c); [|done].
  destruct a as [|d a].
  - change ("" +:+ b) with b.
    destruct b as [|e b]; [done|].
    change (ascii_only (String e b)) with (is_ascii e && ascii_only b) in Hb.
    apply andb_true_iff in Hb as [He _].
    by rewrite (ascii_not_continuation e He).
  - rewrite append_cons. cbn [String.length] in Hn.
    destruct (is_continuation d); [|done].
    cbn [andb]. apply (IH (String.length a)); [lia|done].
Qed.

Lemma ascii_only_pretty_N_go (x : N) (s : string) :
  ascii_only s = true → ascii_only (pretty_N_go x s) = true.
Proof.
  revert s. induction (N.lt_wf_0 x) as [x _ IH]; intros s Hs.
  destruct (decide (x = 0)%N) as [->|Hx]; [by rewrite pretty_N_go_0|].
  rewrite pretty_N_go_step by lia. apply IH.
  - apply N.div_lt; lia.
  - change (ascii_only (String ?c s)) with (is_ascii c && ascii_only s).
    rewrite Hs, andb_true_r.
    unfold pretty_N_char. by repeat case_match.
Qed.

(** A number is printed in ASCII. *)
Lemma ascii_only_pretty (z : Z) : ascii_only (pretty z) = true.
Proof.
  assert (∀ p : positive, ascii_only (pretty p) = true) as Hpos.
  { intros p. unfold pretty, pretty_positive, pretty, pretty_N.
    destruct (decide _); [done|]. by apply ascii_only_pretty_N_go. }
  destruct z as [|p|p]; [done|apply Hpos|].
  unfold pretty, pretty_Z. rewrite ascii_only_app. by rewrite Hpos.
Qed.

Lemma latin1_pretty (z : Z) : latin1 (pretty z) = true.
Proof. apply latin1_ascii, ascii_only_pretty. Qed.

Lemma latin1_log_line (r : string * Z * Z) :
  latin1 (r.1.1 +:+ " - " +:+ pretty r.1.2 +:+ " min - " +:+ pretty r.2 +:+ " cal")
  = latin1 r.1.1.
Proof.
  apply latin1_app_ascii.
  by rewrite !ascii_only_app, !ascii_only_pretty.
Qed.

Lemma log_lines_output (df : list (string * Z * Z)) :
  forallb latin1 (omap cell_text (log_line <$> df))
  = forallb latin1 (col_workout df).
Proof.
  induction df as [|r df IH]; [done|].
  change (forallb latin1 (omap cell_text (log_line <$> r :: df)))
    with (latin1 (r.1.1 +:+ " - " +:+ pretty r.1.2 +:+ " min - "
                  +:+ pretty r.2 +:+ " cal")
          && forallb latin1 (omap cell_text (log_line <$> df))).
  change (forallb latin1 (col_workout (r :: df)))
    with (latin1 r.1.1 && forallb latin1 (col_workout df)).
  by rewrite latin1_log_line, IH.
Qed.

(** [pdf.output] of the report's calls succeeds exactly when the user's
    three texts and the workout types are in Latin-1: the rest of what
    is drawn is fixed text and numbers. *)
Lemma report_output (u : User) (df : list (string * Z * Z)) (n td tc : Z) :
  forallb latin1
    (omap cell_text
       ([add_page; set_font "Arial" 12;
         cell 200 10 "Fitness Report" align_C; ln 10]
        ++ [cell 200 10 ("Name: " +:+ name u) align_default;
            cell 200 10 ("Username: " +:+ username u) align_default;
            cell 200 10 ("Email: " +:+ email u) align_default; ln 10]
        ++ [cell 200 10 ("Total Workouts: " +:+ pretty n) align_default;
            cell 200 10 ("Total Duration: " +:+ pretty td +:+ " min") align_default;
            cell 200 10 ("Total Calories Burned: " +:+ pretty tc) align_default;
            ln 10]
        ++ [cell 200 10 "Workout Log:" align_default; ln 5] ++ (log_line <$> df)))
  = report_text_ok u df.
Proof.
  rewrite !omap_app, !forallb_app, log_lines_output.
  change (forallb latin1 (omap cell_text
            [add_page; set_font "Arial" 12;
             cell 200 10 "Fitness Report" align_C; ln 10])) with true.
  change (forallb latin1 (omap cell_text
            [cell 200 10 "Workout Log:" align_default; ln 5])) with true.
  change (forallb latin1 (omap cell_text
            [cell 200 10 ("Name: " +:+ name u) align_default;
             cell 200 10 ("Username: " +:+ username u) align_default;
             cell 200 10 ("Email: " +:+ email u) align_default; ln 10]))
    with (latin1 ("Name: " +:+ name u)
          && (latin1 ("Username: " +:+ username u)
              && (latin1 ("Email: " +:+ email u) && true))).
  change (forallb latin1 (omap cell_text
            [cell 200 10 ("Total Workouts: " +:+ pretty n) align_default;
             cell 200 10 ("Total Duration: " +:+ pretty td +:+ " min") align_default;
             cell 200 10 ("Total Calories Burned: " +:+ pretty tc) align_default;
             ln 10]))
    with (latin1 ("Total Workouts: " +:+ pretty n)
          && (latin1 ("Total Duration: " +:+ pretty td +:+ " min")
              && (latin1 ("Total Calories Burned: " +:+ pretty tc) && true))).
  rewrite (latin1_app "Name: "), (latin1_app "Username: "), (latin1_app "Email: ")
    by reflexivity.
  rewrite (latin1_app "Total Workouts: "), (latin1_app "Total Duration: "),
    (latin1_app "Total Calories Burned: ") by reflexivity.
  rewrite (latin1_app (pretty td)) by apply latin1_pretty.
  rewrite !latin1_pretty.
  change (latin1 " min") with true.
  unfold report_text_ok. cbn [andb]. by rewrite !andb_true_r, !andb_assoc.
Qed.

(* ================================================================== *)
(** ** The leaderboard query *)

Global Instance by_total_desc_trans : Transitive by_total_desc.
Proof. unfold by_total_desc. intros a b c ??. lia. Qed.

Global Instance by_total_desc_total : Total by_total_desc.
Proof. unfold by_total_desc. intros a b. lia. Qed.


(** When the query returns, it returns the exact totals, ranked. *)
Lemma leaderboard_Ok s l :
  leaderboard s = Ok l →
  l = merge_sort by_total_desc (map_to_list (group_sum (joined s))).
Proof.
  unfold leaderboard.
  destruct (sql_group_sum (joined s)) as [m|e] eqn:E; [|done].
  intros [= <-]. by rewrite (sql_group_sum_Ok _ _ E).
Qed.

(** It returns when the totals fit, and fails when one does not. *)
Lemma leaderboard_fits s :
  totals_fit s →
  leaderboard s = Ok (merge_sort by_total_desc (map_to_list (group_sum (joined s)))).
Proof.
  intros [Hpos Hfit]. unfold leaderboard.
  by rewrite (sql_group_sum_fits _ Hpos Hfit).
Qed.

Lemma leaderboard_overflow s n :
  (∀ p, p ∈ joined s → 0 ≤ p.2) →
  int64_max < sum_Z (filter (λ p, p.1 = n) (joined s)).*2 →
  leaderboard s = Raise OperationalError.
Proof.
  intros Hpos Hbig. unfold leaderboard.
  by rewrite (sql_group_sum_overflow _ n Hpos Hbig).
Qed.

Lemma leaderboard_raises s :
  (∀ p, p ∈ joined s → 0 ≤ p.2) →
  leaderboard s = Raise OperationalError
  ↔ ∃ n, int64_max < sum_Z (filter (λ p, p.1 = n) (joined s)).*2.
Proof.
  intros Hpos. split; [|intros [n Hn]; by eapply leaderboard_overflow].
  intros Hraise.
  destruct (decide (Forall (λ n, sum_Z (filter (λ p, p.1 = n) (joined s)).*2
                                 ≤ int64_max) (joined s).*1)) as [Hall|Hnot].
  - rewrite leaderboard_fits in Hraise; [done|]. split; [done|]. intros n.
    destruct (decide (n ∈ (joined s).*1)) as [Hin|Hout].
    + by eapply Forall_forall in Hall.
    + rewrite filter_none; [unfold sum_Z, int64_max; simpl; lia|].
      intros p Hp Heq. apply Hout. rewrite <- Heq. by apply list_elem_of_fmap_2.
  - apply not_Forall_Exists in Hnot; [|apply _].
    apply Exists_exists in Hnot as (n & _ & Hn). exists n.
    unfold compose in Hn. lia.
Qed.

Lemma elem_of_leaderboard s l n t :
  leaderboard s = Ok l →
  (n, t) ∈ l ↔ group_sum (joined s) !! n = Some t.
Proof.
  intros ->%leaderboard_Ok. rewrite merge_sort_Permutation.
  apply elem_of_map_to_list.
Qed.

Lemma NoDup_leaderboard s l : leaderboard s = Ok l → NoDup l.*1.
Proof.
  intros ->%leaderboard_Ok. rewrite merge_sort_Permutation.
  apply NoDup_fst_map_to_list.
Qed.


Lemma elem_of_joined s n c :
  (n, c) ∈ joined s ↔
  ∃ w u, w ∈ workouts s ∧ u ∈ users s ∧ u_id u = w_user_id w
         ∧ n = username u ∧ c = calories_burned w.
Proof.
  unfold joined. rewrite list_elem_of_bind. split.
  - intros (w & Hin & Hw). apply list_elem_of_bind in Hin as (u & Hin & Hu).
    apply list_elem_of_singleton in Hin as [= -> ->].
    apply list_elem_of_filter in Hu as [? ?]. by exists w, u.
  - intros (w & u & Hw & Hu & Hid & -> & ->). exists w. split; [|done].
    apply list_elem_of_bind. exists u. split; [left|].
    by apply list_elem_of_filter.
Qed.

(** Who is listed: the usernames that the join reaches. *)
Lemma leaderboard_names s l n :
  leaderboard s = Ok l →
  n ∈ l.*1 ↔
  ∃ u w, u ∈ users s ∧ w ∈ workouts s ∧ w_user_id w = u_id u ∧ username u = n.
Proof.
  intros Hl. rewrite list_elem_of_fmap. split.
  - intros ([n' t] & -> & Hin). simpl.
    apply (elem_of_leaderboard s l) in Hin; [|done].
    rewrite group_sum_pairs in Hin.
    destruct (decide (n' ∈ (joined s).*1)) as [Hj|]; [|done].
    apply list_elem_of_fmap in Hj as ([n'' c] & -> & Hj). simpl.
    apply elem_of_joined in Hj as (w & u & ? & ? & ? & -> & ->).
    by exists u, w.
  - intros (u & w & Hu & Hw & Hid & <-).
    assert (username u ∈ (joined s).*1) as Hj.
    { apply list_elem_of_fmap. exists (username u, calories_burned w).
      split; [done|]. apply elem_of_joined. by exists w, u. }
    eexists (username u, _). split; [done|].
    apply (elem_of_leaderboard s l); [done|]. rewrite group_sum_pairs.
    by rewrite decide_True.
Qed.

(** With unique ids and usernames, the join rows under a user's name are
    that user's workouts. *)
Lemma joined_of_user s u :
  wf s → u ∈ users s →
  (filter (λ p, p.1 = username u) (joined s)).*2
  = col_calories (workout_rows s (u_id u)).
Proof.
  intros [Hid Hname] Hu. unfold joined, workout_rows, col_calories.
  induction (workouts s) as [|w ws IH]; [done|].
  rewrite bind_cons, filter_app, fmap_app, IH, filter_cons. clear IH.
  destruct (decide (w_user_id w = u_id u)) as [Heq|Hne].
  - rewrite Heq, (filter_key_unique u_id) by done. simpl.
    rewrite filter_cons, decide_True by done. done.
  - rewrite filter_none; [done|].
    intros [n c] Hin Hn. simpl in Hn. subst n.
    apply list_elem_of_bind in Hin as (u' & Hin & Hu').
    apply list_elem_of_singleton in Hin as [= Hn ->].
    apply list_elem_of_filter in Hu' as [Hid' Hu'].
    assert (u' = u) as ->; [|done].
    apply list_elem_of_lookup in Hu as [i Hi], Hu' as [j Hj].
    assert (i = j) as ->.
    { eapply NoDup_lookup; [exact Hname|..];
        rewrite list_lookup_fmap; [rewrite Hi|rewrite Hj]; simpl; by f_equal. }
    congruence.
Qed.

Lemma username_inj s u u' :
  NoDup (username <$> users s) → u ∈ users s → u' ∈ users s →
  username u' = username u → u' = u.
Proof.
  intros Hname Hu Hu' Heq.
  apply list_elem_of_lookup in Hu as [i Hi], Hu' as [j Hj].
  assert (i = j) as ->; [|congruence].
  eapply NoDup_lookup; [exact Hname|..];
    rewrite list_lookup_fmap; [rewrite Hi|rewrite Hj]; simpl; by f_equal.
Qed.

(** A user with a workout is listed, with the sum of the calories
    logged under the user's id. *)
Lemma leaderboard_entry s l u :
  leaderboard s = Ok l →
  wf s → u ∈ users s → workout_rows s (u_id u) ≠ [] →
  (username u, user_calories s (u_id u)) ∈ l.
Proof.
  intros Hl Hwf Hu Hrows. apply (elem_of_leaderboard s l); [done|].
  rewrite group_sum_pairs, decide_True.
  - unfold user_calories. by rewrite joined_of_user.
  - unfold workout_rows in Hrows.
    destruct (filter (λ w, w_user_id w = u_id u) (workouts s)) as [|w ws] eqn:E;
      [done|].
    assert (w ∈ filter (λ w, w_user_id w = u_id u) (workouts s)) as Hw
      by (rewrite E; left).
    apply list_elem_of_filter in Hw as [Hid Hw].
    apply list_elem_of_fmap. exists (username u, calories_burned w).
    split; [done|]. apply elem_of_joined. by exists w, u.
Qed.



(** C9 as worded, for every store, does not hold: once a user's total
    passes the largest 64-bit integer the query fails with "integer
    overflow" and lists nobody, whoever has workouts. *)
Lemma leaderboard_overflow_counterexample :
  (∃ u w, u ∈ users overflow_store ∧ w ∈ workouts overflow_store
          ∧ w_user_id w = u_id u ∧ username u = "alice")
  ∧ leaderboard overflow_store = Raise OperationalError
  ∧ ¬ ∃ l, leaderboard overflow_store = Ok l ∧ "alice" ∈ l.*1.
Proof.
  assert (leaderboard overflow_store = Raise OperationalError) as Hraise
    by (vm_compute; reflexivity).
  split_and!.
  - exists (mkUser 1 "alice" "pw" "Alice" "alice@example.org"),
           (mkWorkout 1 1 "Running" 60 (2 ^ 62)).
    split_and!; [decide_by_compute| |reflexivity..].
    vm_compute. left.
  - exact Hraise.
  - intros (l & Hl & _). rewrite Hraise in Hl. discriminate Hl.
Qed.

(** C9. Whenever the leaderboard query returns, it has one entry per
    username reached by the join of workouts with users, and no other
    entry; so, usernames being unique, a registered user none of whose
    workouts exist is not listed at all.  The query returns when the
    calories are not negative and no username's total exceeds the
    largest 64-bit integer; with calories not negative it fails exactly
    when some total does. *)
Theorem leaderboard_omits_idle_users (s : Store) :
  (∀ l, leaderboard s = Ok l →
     NoDup l.*1
     ∧ (∀ n, n ∈ l.*1 ↔
             ∃ u w, u ∈ users s ∧ w ∈ workouts s
                    ∧ w_user_id w = u_id u ∧ username u = n)
     ∧ (wf s → ∀ u, u ∈ users s →
          (∀ w, w ∈ workouts s → w_user_id w ≠ u_id u) →
          username u ∉ l.*1))
  ∧ (totals_fit s → ∃ l, leaderboard s = Ok l)
  ∧ ((∀ p, p ∈ joined s → 0 ≤ p.2) →
     leaderboard s = Raise OperationalError
     ↔ ∃ n, int64_max < sum_Z (filter (λ p, p.1 = n) (joined s)).*2).
Proof.
  split_and!.
  - intros l Hl. split_and!.
    + by eapply NoDup_leaderboard.
    + intros n. by apply leaderboard_names.
    + intros [_ Hname] u Hu Hidle Hin.
      apply (leaderboard_names s l) in Hin as (u' & w & Hu' & Hw & Hid & Heq);
        [|done].
      assert (u' = u) as -> by by eapply username_inj.
      by apply (Hidle w).
  - intros Hfit. eexists. by apply leaderboard_fits.
  - apply leaderboard_raises.
Qed.

(** cat is registered in [two_user_store] but logged nothing. *)
Lemma leaderboard_omits_idle_users_witness :
  mkUser 3 "cat" "c" "Cat" "cat@example.org" ∈ users two_user_store
  ∧ leaderboard two_user_store = Ok [("bob", 800); ("ann", 500)]
  ∧ "cat" ∉ [("bob", 800); ("ann", 500)].*1.
Proof.
  assert (wf two_user_store) as Hwf by (split; decide_by_compute).
  assert (mkUser 3 "cat" "c" "Cat" "cat@example.org" ∈ users two_user_store) as Hcat
    by decide_by_compute.
  assert (leaderboard two_user_store = Ok [("bob", 800); ("ann", 500)]) as Hl
    by (vm_compute; reflexivity).
  split; [exact Hcat|]. split; [exact Hl|].
  destruct (leaderboard_omits_idle_users two_user_store) as (Hrows & _ & _).
  destruct (Hrows _ Hl) as (_ & _ & Hidle).
  apply (Hidle Hwf _ Hcat).
  intros w Hw. revert w Hw. apply Forall_forall.
  decide_by_compute.
Defined.

(** The page as rendered for [two_user_store]. *)
Example display_leaderboard_two_users :
  display_leaderboard two_user_store
  = Ok [st_subheader "Leaderboard";
        st_write "1. bob - 800 calories burned";
        st_write "2. ann - 500 calories burned"].
Proof. vm_compute. reflexivity. Qed.

(* ================================================================== *)
(** ** The dashboard *)







(** The figures of the scenario, evaluated. *)
Example user_dashboard_alice :
  ∃ rest,
    user_dashboard alice_store 1 false
    = Ok ([st_balloons; st_header "🏋️‍♀️ Your Fitness Dashboard";
           st_metric "Total Workouts" 2;
           st_metric "Total Duration (min)" 50;
           st_metric "Total Calories Burned" 450;
           st_subheader "Calories Burned by Workout Type";
           st_bar_chart {[ "Running" := 300; "Cycling" := 150 ]}] ++ rest).
Proof. eexists. vm_compute. reflexivity. Qed.

(* ================================================================== *)
(** ** The report *)

Lemma fetch_user_by_id s uid :
  (uid ∈ u_id <$> users s →
     ∃ u, u ∈ users s ∧ u_id u = uid
          ∧ head (filter (λ u, u_id u = uid) (users s)) = Some u)
  ∧ (uid ∉ u_id <$> users s → filter (λ u, u_id u = uid) (users s) = []).
Proof.
  split.
  - intros (u0 & -> & Hu0)%list_elem_of_fmap.
    destruct (filter (λ u, u_id u = u_id u0) (users s)) as [|u l] eqn:E.
    + exfalso. by eapply (filter_nil_not_elem_of _ _ u0).
    + assert (u ∈ filter (λ u, u_id u = u_id u0) (users s)) as Hu
        by (rewrite E; left).
      apply list_elem_of_filter in Hu as [Hid Hu]. by exists u.
  - intros Hout. apply filter_none. intros u Hu Heq. apply Hout.
    rewrite <- Heq. by apply list_elem_of_fmap_2.
Qed.

(** The three outcomes of [generate_report]: no row for the id, a text
    outside Latin-1, or the document. *)
Lemma generate_report_cases s uid :
  generate_report s uid
  = match head (filter (λ u, u_id u = uid) (users s)) with
    | None => Raise TypeError
    | Some u =>
        if report_text_ok u (workout_rows s uid)
        then Ok (mkReport ("fitness_report_user_" +:+ pretty uid +:+ ".pdf")
                          (report_calls u (workout_rows s uid)))
        else Raise UnicodeEncodeError
    end.
Proof.
  unfold generate_report, fetchone.
  destruct (filter (λ u, u_id u = uid) (users s)) as [|u l]; [done|].
  cbn [fmap list_fmap head user_identity_tuple getitem lookup list_lookup
       mbind result_bind fmt].
  unfold output. rewrite report_output.
  by destruct (report_text_ok u (workout_rows s uid)).
Qed.

(** C3 as worded, for every existing user, does not hold: Зоя exists and
    has no workouts, yet her report raises, her name not being Latin-1. *)
Lemma generate_report_cyrillic_counterexample :
  mkUser 1 "zoya" "pw" "Зоя" "zoya@example.org" ∈ users zoya_store
  ∧ workouts zoya_store = []
  ∧ generate_report zoya_store 1 = Raise UnicodeEncodeError
  ∧ ¬ ∃ doc, generate_report zoya_store 1 = Ok doc.
Proof.
  assert (generate_report zoya_store 1 = Raise UnicodeEncodeError) as Hraise
    by (vm_compute; reflexivity).
  split_and!; [vm_compute; left | reflexivity | exact Hraise |].
  intros [doc Hdoc]. rewrite Hraise in Hdoc. discriminate Hdoc.
Qed.

(** C3. For a user whose row exists, whose name, username and email are
    in Latin-1 and who has no workout row, [generate_report] raises
    nothing and returns the document whose three total lines read 0
    and whose last entries are the "Workout Log:" heading and the gap
    after it, with no workout line. *)
Theorem generate_report_no_workouts (s : Store) (user_id : Z) :
  (user_id ∈ u_id <$> users s) →
  (∀ w, w ∈ workouts s → w_user_id w ≠ user_id) →
  (∀ u, u ∈ users s → u_id u = user_id →
        latin1 (name u) = true ∧ latin1 (username u) = true
        ∧ latin1 (email u) = true) →
  ∃ u, u ∈ users s ∧ u_id u = user_id ∧
    generate_report s user_id =
    Ok (mkReport ("fitness_report_user_" +:+ pretty user_id +:+ ".pdf")
          [add_page; set_font "Arial" 12;
           cell 200 10 "Fitness Report" align_C; ln 10;
           cell 200 10 ("Name: " +:+ name u) align_default;
           cell 200 10 ("Username: " +:+ username u) align_default;
           cell 200 10 ("Email: " +:+ email u) align_default; ln 10;
           cell 200 10 "Total Workouts: 0" align_default;
           cell 200 10 "Total Duration: 0 min" align_default;
           cell 200 10 "Total Calories Burned: 0" align_default; ln 10;
           cell 200 10 "Workout Log:" align_default; ln 5]).
Proof.
  intros Huser Hidle Htext.
  destruct (proj1 (fetch_user_by_id s user_id) Huser) as (u & Hu & Hid & Hhead).
  exists u. split; [done|]. split; [done|].
  rewrite generate_report_cases, Hhead.
  assert (workout_rows s user_id = []) as ->.
  { unfold workout_rows. by rewrite (filter_none _ (workouts s)). }
  destruct (Htext u Hu Hid) as (Hn & Hun & Hem).
  unfold report_text_ok. rewrite Hn, Hun, Hem. reflexivity.
Qed.

Lemma generate_report_no_workouts_witness :
  ∃ doc, generate_report signed_up_store 1 = Ok doc
    ∧ cell 200 10 "Total Workouts: 0" align_default ∈ pdf doc
    ∧ cell 200 10 "Total Duration: 0 min" align_default ∈ pdf doc
    ∧ cell 200 10 "Total Calories Burned: 0" align_default ∈ pdf doc
    ∧ last (pdf doc) = Some (ln 5).
Proof.
  destruct (generate_report_no_workouts signed_up_store 1) as (u & _ & _ & Hdoc).
  - vm_compute. left.
  - intros w Hw. vm_compute in Hw. by apply not_elem_of_nil in Hw.
  - intros u Hu _. vm_compute in Hu. apply list_elem_of_singleton in Hu.
    subst u. split_and!; reflexivity.
  - eexists. split; [exact Hdoc|]. simpl. split_and!.
    + do 8 right. left.
    + do 9 right. left.
    + do 10 right. left.
    + reflexivity.
Defined.

(** With workouts the log has one line per row. *)
Example generate_report_alice :
  ∃ doc, generate_report alice_store 1 = Ok doc
    ∧ drop 8 (pdf doc)
      = [cell 200 10 "Total Workouts: 2" align_default;
         cell 200 10 "Total Duration: 50 min" align_default;
         cell 200 10 "Total Calories Burned: 450" align_default; ln 10;
         cell 200 10 "Workout Log:" align_default; ln 5;
         cell 200 10 "Running - 30 min - 300 cal" align_default;
         cell 200 10 "Cycling - 20 min - 150 cal" align_default].
Proof. eexists. split; vm_compute; reflexivity. Qed.

(** Without the user's row the report raises: [user[1]] subscripts None. *)
Example generate_report_unknown_user :
  generate_report alice_store 2 = Raise TypeError.
Proof. reflexivity. Qed.

(* ================================================================== *)
(** ** Invariants of the store *)

Lemma workouts_ok_same s s' :
  workouts s' = workouts s → workouts_ok s → workouts_ok s'.
Proof. unfold workouts_ok. by intros ->. Qed.

Lemma log_workout_ok s user_id wtype d c :
  workouts_ok s →
  workouts_ok (log_workout s user_id wtype d c) ↔ 1 ≤ d ∧ 0 ≤ c.
Proof.
  unfold workouts_ok, log_workout. simpl. intros Hok. split.
  - intros H.
    apply (H (mkWorkout (next_id s "workouts" (w_id <$> workouts s))
                        user_id wtype d c)).
    apply elem_of_app. right. left.
  - intros Hdc w [Hw|Hw%list_elem_of_singleton]%elem_of_app; [by apply Hok|].
    by subst w.
Qed.

Lemma signup_users s uname pw nm em s' out :
  signup s uname pw nm em = Ok (s', out) →
  workouts s' = workouts s
  ∧ (s' = s ∨ (uname ∉ username <$> users s)
              ∧ ∃ i, (i ∉ u_id <$> users s)
                     ∧ users s' = users s ++ [mkUser i uname pw nm em]).
Proof.
  rewrite signup_unfold.
  destruct (decide (uname ∈ username <$> users s)) as [Hin|Hout].
  - intros [= <- <-]. split; [done|by left].
  - intros [= <- <-]. split; [done|]. right. split; [done|].
    eexists. split; [apply next_id_fresh|done].
Qed.

Lemma forgot_password_store s uname pw pw' :
  (forgot_password s uname pw pw').1 = s
  ∨ (forgot_password s uname pw pw').1 = reset_password s uname pw.
Proof.
  unfold forgot_password.
  destruct (negb (truthy _)); [by left|].
  destruct (negb (bool_decide _)); [by left|by right].
Qed.

Lemma reset_password_wf s uname pw : wf s → wf (reset_password s uname pw).
Proof.
  unfold wf, reset_password. simpl. rewrite <- !list_fmap_compose.
  intros [Hid Hname]. split.
  - erewrite list_fmap_ext; [exact Hid|]. intros i u _. simpl. by destruct (decide _).
  - erewrite list_fmap_ext; [exact Hname|]. intros i u _. simpl. by destruct (decide _).
Qed.

Lemma wf_same s s' : users s' = users s → wf s → wf s'.
Proof. unfold wf. by intros ->. Qed.

Section Invariants.

Variable number_input : Z → Z → Z.
Hypothesis number_input_min : ∀ m v, m ≤ number_input m v.

(** The Challenges page leaves users and workouts alone. *)
Lemma challenge_page_frame s uid cname g ctype pressed :
  users (challenge_page number_input s uid cname g ctype pressed).1 = users s
  ∧ workouts (challenge_page number_input s uid cname g ctype pressed).1
    = workouts s.
Proof.
  unfold challenge_page, offered. simpl.
  by repeat case_bool_decide.
Qed.

(** No page touches the workouts table except the Log Workout page,
    whose two numbers come out of number inputs. *)
Lemma step_workouts s a :
  workouts (step number_input s a) = workouts s
  ∨ ∃ i user_id wtype d c,
      1 ≤ d ∧ 0 ≤ c
      ∧ workouts (step number_input s a)
        = workouts s ++ [mkWorkout i user_id wtype d c].
Proof.
  destruct a as [uname pw nm em|uname pw pw'|uid sel d c|uid cname g ctype pressed];
    simpl.
  - left. destruct (signup s uname pw nm em) as [[s' out]|e] eqn:E; [|done].
    by apply signup_users in E as [? _].
  - left. by destruct (forgot_password_store s uname pw pw') as [-> | ->].
  - right. eexists _, uid, sel, (number_input 1 d), (number_input 0 c).
    split_and!; [apply number_input_min..|done].
  - left. apply challenge_page_frame.
Qed.

Lemma step_workouts_ok s a :
  workouts_ok s → workouts_ok (step number_input s a).
Proof.
  intros Hok. destruct (step_workouts s a) as [Hsame|Hlog].
  - by eapply workouts_ok_same.
  - destruct Hlog as (i & uid & wtype & d & c & Hd & Hc & Hw).
    intros w. rewrite Hw.
    intros [Hin|Hin%list_elem_of_singleton]%elem_of_app; [by apply Hok|].
    by subst w.
Qed.

(** The schema's constraints on the users table hold after every page. *)
Lemma step_wf s a : wf s → wf (step number_input s a).
Proof.
  intros Hwf.
  destruct a as [uname pw nm em|uname pw pw'|uid sel d c|uid cname g ctype pressed];
    simpl; try done.
  - destruct (signup s uname pw nm em) as [[s' out]|e] eqn:E; [|done].
    apply signup_users in E as [_ [->|(Hname & i & Hi & Hus)]]; [done|].
    destruct Hwf as [Hids Hnames]. unfold wf. rewrite Hus, !fmap_app. simpl.
    split; apply NoDup_app; (split; [done|]);
      (split; [|apply NoDup_singleton]);
      intros x Hx ->%list_elem_of_singleton; done.
  - destruct (forgot_password_store s uname pw pw') as [-> | ->]; [done|].
    by apply reset_password_wf.
  - eapply wf_same; [apply challenge_page_frame|done].
Qed.

Lemma run_invariant (P : Store → Prop) s acts :
  (∀ s a, P s → P (step number_input s a)) →
  P s → P (run number_input s acts).
Proof.
  intros Hstep. unfold run. revert s.
  induction acts as [|a acts IH]; intros s Hs; simpl; [done|].
  apply IH. by apply Hstep.
Qed.

Lemma run_wf acts : wf (run number_input Db.empty acts).
Proof.
  apply run_invariant; [apply step_wf|].
  split; simpl; apply NoDup_nil_2.
Qed.

End Invariants.

Lemma clamp_min (m v : Z) : m ≤ clamp m v.
Proof. unfold clamp. destruct (decide _); lia. Qed.

(** C6 as worded does not hold of [log_workout]: it stores the duration
    and the calories it is handed, whatever they are. *)
Lemma log_workout_unvalidated_counterexample :
  workouts_ok signed_up_store
  ∧ ¬ workouts_ok (log_workout signed_up_store 1 "Running" 0 (-5)).
Proof.
  split.
  - intros w Hw. vm_compute in Hw. by apply not_elem_of_nil in Hw.
  - intros Hok.
    destruct (Hok (mkWorkout 1 1 "Running" 0 (-5))) as [Hd _];
      [vm_compute; left|simpl in Hd; lia].
Qed.

(** C6. Through the pages the invariant holds.  The Log Workout page
    adds one row, whose duration and calories are what its two number
    inputs hold; every other page leaves the workouts table as it is.
    So, whenever the number inputs respect their minimum, every page
    keeps every workout row at a duration of at least 1 and calories of
    at least 0, and so does every store built from the empty one by the
    pages.  [log_workout] itself validates nothing: the row it adds
    satisfies the invariant exactly when the two numbers it is handed
    do. *)
Theorem pages_keep_workouts_ok (number_input : Z → Z → Z) :
  (∀ m v, m ≤ number_input m v) →
  (∀ s a, workouts_ok s → workouts_ok (step number_input s a))
  ∧ (∀ acts, workouts_ok (run number_input Db.empty acts))
  ∧ (∀ s user_id wtype d c, workouts_ok s →
       (workouts_ok (log_workout s user_id wtype d c) ↔ 1 ≤ d ∧ 0 ≤ c))
  ∧ (∀ s a, (∀ user_id sel d c, a ≠ LogWorkout user_id sel d c) →
       workouts (step number_input s a) = workouts s)
  ∧ (∀ s user_id sel d c,
       workouts (step number_input s (LogWorkout user_id sel d c))
       = workouts s
         ++ [mkWorkout (next_id s "workouts" (w_id <$> workouts s)) user_id sel
                       (number_input 1 d) (number_input 0 c)]).
Proof.
  intros Hmin. split_and!.
  - intros s a. by apply step_workouts_ok.
  - intros acts. apply (run_invariant number_input workouts_ok).
    + intros s a. by apply step_workouts_ok.
    + intros w Hw. by apply not_elem_of_nil in Hw.
  - intros s uid wtype d c. apply log_workout_ok.
  - intros s a Hother.
    destruct a as [uname pw nm em|uname pw pw'|uid sel d c|uid cname g ctype pressed];
      simpl.
    + destruct (signup s uname pw nm em) as [[s' out]|e] eqn:E; [|done].
      by apply signup_users in E as [? _].
    + by destruct (forgot_password_store s uname pw pw') as [-> | ->].
    + by destruct (Hother uid sel d c).
    + apply challenge_page_frame.
  - done.
Qed.

(** A visitor typing 0 minutes and -5 calories gets the minimums logged. *)
Lemma pages_keep_workouts_ok_witness :
  (∀ m v, m ≤ clamp m v)
  ∧ workouts (run clamp signed_up_store [LogWorkout 1 "Running" 0 (-5)])
    = [mkWorkout 1 1 "Running" 1 0]
  ∧ workouts_ok (run clamp Db.empty
                     [SignUp "alice" "pw" "Alice" "alice@example.org";
                      LogWorkout 1 "Running" 0 (-5)]).
Proof.
  assert (∀ m v, m ≤ clamp m v) as Hmin by apply clamp_min.
  split; [exact Hmin|]. split; [reflexivity|].
  destruct (pages_keep_workouts_ok clamp Hmin) as (_ & Hrun & _ & _ & _).
  apply Hrun.
Defined.

(* ================================================================== *)
(** ** Accounts: signing up, logging in, resetting *)

Lemma filter_username_fmap (g : User → User) (l : list User) (n : string) :
  (∀ u, username (g u) = username u) →
  filter (λ u, username u = n) (g <$> l) = g <$> filter (λ u, username u = n) l.
Proof.
  intros Hg. induction l as [|u l IH]; [done|].
  rewrite fmap_cons, !filter_cons, Hg, IH.
  by destruct (decide (username u = n)).
Qed.

Lemma reset_row_username n pw u :
  username (if decide (username u = n) then set_password pw u else u) = username u.
Proof. by destruct (decide _). Qed.

Lemma store_eta s :
  mkStore (users s) (workouts s) (challenges s) (challenge_participants s)
          (sqlite_sequence s) = s.
Proof. by destruct s. Qed.

(** A new account can log in at once with the password it was created
    with, and with no other password. *)
Theorem signup_then_login (s : Store) (uname pw nm em : string) :
  (uname ∉ username <$> users s) →
  ∃ s' i,
    signup s uname pw nm em
      = Ok (s', [st_success "Account created! You can now login."])
    ∧ verify_user s' uname pw
      = Ok (Some [VInt i; VStr uname; VStr pw; VStr nm; VStr em])
    ∧ ∀ pw', pw' ≠ pw → verify_user s' uname pw' = Ok None.
Proof.
  intros Hnew. rewrite signup_unfold, decide_False by done.
  eexists _, _. split; [reflexivity|].
  assert (filter (λ u, username u = uname) (users s) = []) as Hnone.
  { apply filter_none. intros u Hu Heq. apply Hnew. rewrite <- Heq.
    by apply list_elem_of_fmap_2. }
  split.
  - rewrite verify_user_unfold. simpl.
    rewrite filter_app, Hnone, filter_cons, decide_True by done. simpl.
    by rewrite decide_True.
  - intros pw' Hpw. rewrite verify_user_unfold. simpl.
    rewrite filter_app, Hnone, filter_cons, decide_True by done. simpl.
    by rewrite decide_False.
Qed.

Lemma signup_then_login_witness :
  ∃ s' i,
    signup alice_store "bob" "b" "Bob" "bob@example.org"
      = Ok (s', [st_success "Account created! You can now login."])
    ∧ verify_user s' "bob" "b"
      = Ok (Some [VInt i; VStr "bob"; VStr "b"; VStr "Bob";
                  VStr "bob@example.org"])
    ∧ verify_user s' "bob" "B" = Ok None.
Proof.
  destruct (signup_then_login alice_store "bob" "b" "Bob" "bob@example.org")
    as (s' & i & Hs & Hyes & Hno).
  - vm_compute. intros H. apply list_elem_of_singleton in H. discriminate H.
  - exists s', i. split; [exact Hs|]. split; [exact Hyes|].
    apply Hno. discriminate.
Defined.

(** [add_user] raises [IntegrityError] exactly on a username already
    stored, but signing up never raises: the page looks the username up
    first and only then inserts. *)
Theorem signup_never_raises (s : Store) (uname pw nm em : string) :
  (add_user s uname pw nm em = Raise IntegrityError
     ↔ uname ∈ username <$> users s)
  ∧ ∃ r, signup s uname pw nm em = Ok r.
Proof.
  split.
  - unfold add_user. destruct (decide _); split; done.
  - rewrite signup_unfold. destruct (decide _); eauto.
Qed.

(** The Forgot Password page refuses, leaving the store as it is, when
    the username is unknown (whatever the two passwords are) and, for a
    known username, when the two passwords differ; otherwise it resets
    the password. *)
Theorem forgot_password_cases (s : Store) (uname new_password confirm_password : string) :
  (uname ∉ username <$> users s →
     forgot_password s uname new_password confirm_password
       = (s, [st_error "🚫 Username not found!"]))
  ∧ (uname ∈ username <$> users s → new_password ≠ confirm_password →
     forgot_password s uname new_password confirm_password
       = (s, [st_warning "⚠️ Passwords do not match."]))
  ∧ (uname ∈ username <$> users s → new_password = confirm_password →
     forgot_password s uname new_password confirm_password
       = (reset_password s uname new_password,
          [st_success "✅ Password reset successfully! You can now login."])).
Proof.
  unfold forgot_password. rewrite truthy_check_user. split_and!.
  - intros Hout. by rewrite bool_decide_eq_false_2.
  - intros Hin Hne. rewrite bool_decide_eq_true_2 by done. simpl.
    by rewrite bool_decide_eq_false_2.
  - intros Hin Heq. rewrite bool_decide_eq_true_2 by done. simpl.
    by rewrite bool_decide_eq_true_2.
Qed.

Lemma forgot_password_cases_witness :
  forgot_password alice_store "mallory" "x" "y"
    = (alice_store, [st_error "🚫 Username not found!"])
  ∧ forgot_password alice_store "alice" "x" "y"
    = (alice_store, [st_warning "⚠️ Passwords do not match."])
  ∧ (forgot_password alice_store "alice" "x" "x").1
    = reset_password alice_store "alice" "x".
Proof.
  destruct (forgot_password_cases alice_store "mallory" "x" "y") as (H1 & _ & _).
  destruct (forgot_password_cases alice_store "alice" "x" "y") as (_ & H2 & _).
  destruct (forgot_password_cases alice_store "alice" "x" "x") as (_ & _ & H3).
  split_and!.
  - apply H1. vm_compute. intros H. apply list_elem_of_singleton in H. discriminate H.
  - apply H2; [vm_compute; left | discriminate].
  - rewrite H3; [reflexivity | vm_compute; left | reflexivity].
Defined.

(** Anyone who knows a username can reset its password: after a reset
    with matching passwords that user logs in with the new password and
    with no other, and the logins of the other users are as before. *)
Theorem forgot_password_then_login (s : Store) (u : User) (new_password : string) :
  NoDup (username <$> users s) → u ∈ users s →
  let s' := (forgot_password s (username u) new_password new_password).1 in
  verify_user s' (username u) new_password
    = Ok (Some [VInt (u_id u); VStr (username u); VStr new_password;
                VStr (name u); VStr (email u)])
  ∧ (∀ pw, pw ≠ new_password → verify_user s' (username u) pw = Ok None)
  ∧ (∀ n pw, n ≠ username u → verify_user s' n pw = verify_user s n pw).
Proof.
  intros Hnd Hu. simpl.
  assert (forgot_password s (username u) new_password new_password
          = (reset_password s (username u) new_password,
             [st_success "✅ Password reset successfully! You can now login."]))
    as ->.
  { unfold forgot_password. rewrite truthy_check_user.
    rewrite bool_decide_eq_true_2 by by apply list_elem_of_fmap_2.
    simpl. by rewrite bool_decide_eq_true_2. }
  simpl. split_and!.
  - rewrite verify_user_unfold. simpl.
    rewrite filter_username_fmap by (intros; apply reset_row_username).
    rewrite (filter_key_unique username) by done. simpl.
    destruct (decide (username u = username u)) as [_|?]; [|done]. simpl.
    by rewrite decide_True.
  - intros pw Hpw. rewrite verify_user_unfold. simpl.
    rewrite filter_username_fmap by (intros; apply reset_row_username).
    rewrite (filter_key_unique username) by done. simpl.
    destruct (decide (username u = username u)) as [_|?]; [|done]. simpl.
    by rewrite decide_False.
  - intros n pw Hn. rewrite !verify_user_unfold. simpl.
    rewrite filter_username_fmap by (intros; apply reset_row_username).
    f_equal.
    destruct (filter (λ u0, username u0 = n) (users s)) as [|v l] eqn:E; [done|].
    assert (v ∈ filter (λ u0, username u0 = n) (users s)) as Hv by (rewrite E; left).
    apply list_elem_of_filter in Hv as [Hvn _]. simpl.
    destruct (decide (username v = username u)) as [?|_]; [congruence|done].
Qed.

Lemma forgot_password_then_login_witness :
  let s' := (forgot_password two_user_store "bob" "new" "new").1 in
  verify_user s' "bob" "new"
    = Ok (Some [VInt 2; VStr "bob"; VStr "new"; VStr "Bob";
                VStr "bob@example.org"])
  ∧ verify_user s' "bob" "b" = Ok None
  ∧ verify_user s' "ann" "a" = verify_user two_user_store "ann" "a".
Proof.
  assert (NoDup (username <$> users two_user_store)) as Hnd by decide_by_compute.
  assert (mkUser 2 "bob" "b" "Bob" "bob@example.org" ∈ users two_user_store)
    as Hbob by decide_by_compute.
  destruct (forgot_password_then_login two_user_store _ "new" Hnd Hbob)
    as (Hyes & Hno & Hother).
  split_and!.
  - exact Hyes.
  - apply Hno. discriminate.
  - apply Hother. discriminate.
Defined.

(** [reset_password] on a username without a row changes nothing. *)
Theorem reset_password_unknown (s : Store) (uname new_password : string) :
  (uname ∉ username <$> users s) →
  reset_password s uname new_password = s.
Proof.
  intros Hout. unfold reset_password.
  rewrite <- (store_eta s) at 6. f_equal.
  rewrite <- (list_fmap_id (users s)) at 2.
  apply list_fmap_ext. intros i u Hi. simpl.
  rewrite decide_False; [done|]. intros <-. apply Hout.
  apply list_elem_of_fmap_2. by eapply list_elem_of_lookup_2.
Qed.

Lemma reset_password_unknown_witness :
  reset_password alice_store "mallory" "x" = alice_store.
Proof.
  apply reset_password_unknown.
  vm_compute. intros H. apply list_elem_of_singleton in H. discriminate H.
Defined.

(** Of two resets for one username the later one stands; resets for
    different usernames do not interfere. *)
Theorem reset_password_twice (s : Store) (n1 n2 p1 p2 : string) :
  reset_password (reset_password s n1 p1) n1 p2 = reset_password s n1 p2
  ∧ (n1 ≠ n2 →
     reset_password (reset_password s n1 p1) n2 p2
     = reset_password (reset_password s n2 p2) n1 p1).
Proof.
  unfold reset_password. simpl. split.
  - f_equal. rewrite <- list_fmap_compose. apply list_fmap_ext.
    intros i u _. unfold set_password. simpl.
    repeat (case_decide; simpl in *); congruence.
  - intros Hne. f_equal. rewrite <- !list_fmap_compose. apply list_fmap_ext.
    intros i u _. unfold set_password. simpl.
    repeat (case_decide; simpl in *); congruence.
Qed.

Lemma reset_password_twice_witness :
  reset_password (reset_password two_user_store "ann" "x") "bob" "y"
  = reset_password (reset_password two_user_store "bob" "y") "ann" "x".
Proof.
  apply (reset_password_twice two_user_store "ann" "bob" "x" "y").
  discriminate.
Defined.

(* ================================================================== *)
(** ** Logging workouts and the totals *)

Lemma workout_rows_log s uid wtype d c uid' :
  workout_rows (log_workout s uid wtype d c) uid'
  = workout_rows s uid' ++ (if decide (uid = uid') then [(wtype, d, c)] else []).
Proof.
  unfold workout_rows, log_workout. simpl.
  rewrite filter_app, fmap_app, filter_cons, filter_nil. simpl.
  by destruct (decide (uid = uid')).
Qed.

(** Logging a workout appends its row to the rows of the user it is
    logged for, adds its calories to that user's total, and leaves the
    rows of every other user as they were. *)
Theorem log_workout_totals (s : Store) (uid : Z) (wtype : string) (d c : Z) :
  let s' := log_workout s uid wtype d c in
  workout_rows s' uid = workout_rows s uid ++ [(wtype, d, c)]
  ∧ user_calories s' uid = user_calories s uid + c
  ∧ sum_Z (col_duration (workout_rows s' uid))
    = sum_Z (col_duration (workout_rows s uid)) + d
  ∧ (∀ uid', uid' ≠ uid → workout_rows s' uid' = workout_rows s uid').
Proof.
  simpl. split_and!.
  - by rewrite workout_rows_log, decide_True.
  - unfold user_calories, col_calories.
    rewrite workout_rows_log, decide_True, fmap_app, sum_Z_app by done.
    unfold sum_Z. simpl. lia.
  - unfold col_duration.
    rewrite workout_rows_log, decide_True, fmap_app, sum_Z_app by done.
    unfold sum_Z. simpl. lia.
  - intros uid' Hne. rewrite workout_rows_log, decide_False by done.
    by rewrite app_nil_r.
Qed.

Lemma log_workout_totals_witness :
  workout_rows (log_workout alice_store 1 "Yoga" 45 120) 1
  = [("Running", 30, 300); ("Cycling", 20, 150); ("Yoga", 45, 120)]
  ∧ workout_rows (log_workout alice_store 1 "Yoga" 45 120) 2
    = workout_rows alice_store 2.
Proof.
  pose proof (log_workout_totals alice_store 1 "Yoga" 45 120) as (H1 & _ & _ & H2).
  split; [exact H1|]. apply H2. discriminate.
Defined.

Lemma joined_log s uid wtype d c :
  joined (log_workout s uid wtype d c)
  = joined s ++ ((λ u, (username u, c)) <$> filter (λ u, u_id u = uid) (users s)).
Proof.
  unfold joined, log_workout. simpl. rewrite bind_app. f_equal.
  rewrite bind_cons. change ([] ≫= ?f) with (@nil (string * Z)).
  rewrite app_nil_r. simpl.
  induction (filter _ (users s)) as [|u l IH]; [done|].
  rewrite bind_cons, IH. done.
Qed.

(** A workout logged under an id that no user row carries does not show
    on the leaderboard: the board is as it was. *)
Theorem leaderboard_ignores_orphans (s : Store) (uid : Z) (wtype : string) (d c : Z) :
  (uid ∉ u_id <$> users s) →
  leaderboard (log_workout s uid wtype d c) = leaderboard s.
Proof.
  intros Hout. unfold leaderboard. rewrite joined_log.
  rewrite filter_none; [by rewrite app_nil_r|].
  intros u Hu Heq. apply Hout. rewrite <- Heq. by apply list_elem_of_fmap_2.
Qed.

Lemma leaderboard_ignores_orphans_witness :
  leaderboard (log_workout two_user_store 99 "Running" 10 5000)
  = Ok [("bob", 800); ("ann", 500)].
Proof.
  rewrite (leaderboard_ignores_orphans two_user_store 99 "Running" 10 5000).
  - vm_compute. reflexivity.
  - decide_by_compute.
Defined.

(** After a registered user logs a workout, the leaderboard, whenever
    the query returns, lists that user with the former total plus the
    new calories, and every other name with the total it had.  The
    query returns when the totals, the new workout counted, fit in 64
    bits. *)
Theorem leaderboard_after_log (s : Store) (u : User) (wtype : string) (d c : Z) :
  wf s → u ∈ users s →
  let s' := log_workout s (u_id u) wtype d c in
  (∀ l', leaderboard s' = Ok l' →
     (username u, user_calories s (u_id u) + c) ∈ l'
     ∧ ∀ l, leaderboard s = Ok l →
         ∀ n t, n ≠ username u → (n, t) ∈ l' ↔ (n, t) ∈ l)
  ∧ (totals_fit s' → ∃ l', leaderboard s' = Ok l').
Proof.
  intros Hwf Hu. simpl.
  assert (wf (log_workout s (u_id u) wtype d c)) as Hwf' by by eapply wf_same.
  split; [|intros Hfit; eexists; by apply leaderboard_fits].
  intros l' Hl'. split.
  - pose proof (leaderboard_entry _ l' u Hl' Hwf' Hu) as Hin.
    unfold user_calories, col_calories in *.
    rewrite workout_rows_log, decide_True, fmap_app, sum_Z_app in Hin by done.
    unfold sum_Z in Hin at 2. simpl in Hin. rewrite Z.add_0_r in Hin.
    apply Hin. by destruct (workout_rows s (u_id u)).
  - intros l Hl n t Hn.
    rewrite (elem_of_leaderboard _ l' n t Hl'), (elem_of_leaderboard _ l n t Hl).
    rewrite !group_sum_pairs, joined_log.
    destruct Hwf as [Hid _]. rewrite (filter_key_unique u_id) by done. simpl.
    rewrite filter_app, filter_cons.
    destruct (decide ((username u, c).1 = n)) as [Heq|_];
      [simpl in Heq; congruence|].
    rewrite filter_nil, app_nil_r, fmap_app. simpl.
    destruct (decide (n ∈ (joined s).*1 ++ [username u])) as [Hin|Hout];
      destruct (decide (n ∈ (joined s).*1)) as [Hin'|Hout']; try done.
    + apply elem_of_app in Hin as [?|Hin%list_elem_of_singleton]; done.
    + exfalso. apply Hout. apply elem_of_app. by left.
Qed.

Lemma leaderboard_after_log_witness :
  leaderboard (log_workout two_user_store 1 "Yoga" 60 400)
    = Ok [("ann", 900); ("bob", 800)]
  ∧ ("ann", 900) ∈ [("ann", 900); ("bob", 800)].
Proof.
  assert (wf two_user_store) as Hwf by (split; decide_by_compute).
  assert (mkUser 1 "ann" "a" "Ann" "ann@example.org" ∈ users two_user_store)
    as Hann by decide_by_compute.
  assert (leaderboard (log_workout two_user_store 1 "Yoga" 60 400)
          = Ok [("ann", 900); ("bob", 800)]) as Hl by (vm_compute; reflexivity).
  split; [exact Hl|].
  destruct (leaderboard_after_log two_user_store _ "Yoga" 60 400 Hwf Hann)
    as [Hrows _].
  destruct (Hrows _ Hl) as [Hself _]. exact Hself.
Defined.

(* ================================================================== *)
(** ** The totals on the leaderboard add up *)

Lemma sum_Z_Permutation (l1 l2 : list Z) : l1 ≡ₚ l2 → sum_Z l1 = sum_Z l2.
Proof.
  unfold sum_Z. induction 1 as [|x l1 l2 _ IH|x y l|l1 l2 l3 _ IH1 _ IH2];
    simpl; lia.
Qed.

Lemma sum_group_sum (rows : list (string * Z)) :
  sum_Z (map_to_list (group_sum rows)).*2 = sum_Z rows.*2.
Proof.
  induction rows as [|[k v] rows IH].
  - unfold group_sum. simpl. by rewrite map_to_list_empty.
  - change (group_sum ((k, v) :: rows))
      with (<[k := default 0 (group_sum rows !! k) + v]> (group_sum rows)).
    rewrite fmap_cons. simpl.
    change (sum_Z (v :: rows.*2)) with (v + sum_Z rows.*2). rewrite <- IH.
    destruct (group_sum rows !! k) as [x|] eqn:E; simpl.
    + rewrite <- insert_delete_eq.
      rewrite (sum_Z_Permutation _ ((k, x + v) :: map_to_list (delete k (group_sum rows))).*2).
      2:{ apply fmap_Permutation, map_to_list_insert, lookup_delete_eq. }
      rewrite (sum_Z_Permutation (map_to_list (group_sum rows)).*2
                 ((k, x) :: map_to_list (delete k (group_sum rows))).*2).
      2:{ apply fmap_Permutation. symmetry. by apply map_to_list_delete. }
      rewrite !fmap_cons. unfold sum_Z. simpl. lia.
    + rewrite (sum_Z_Permutation _ ((k, 0 + v) :: map_to_list (group_sum rows)).*2).
      2:{ apply fmap_Permutation. by apply map_to_list_insert. }
      rewrite fmap_cons. unfold sum_Z. simpl. lia.
Qed.

Lemma joined_calories s :
  NoDup (u_id <$> users s) →
  (joined s).*2
  = calories_burned <$> filter (λ w, w_user_id w ∈ u_id <$> users s) (workouts s).
Proof.
  intros Hid. unfold joined.
  induction (workouts s) as [|w ws IH]; [done|].
  rewrite bind_cons, fmap_app, IH, filter_cons. clear IH.
  destruct (decide (w_user_id w ∈ u_id <$> users s)) as [Hin|Hout].
  - apply list_elem_of_fmap in Hin as (u & -> & Hu).
    by rewrite (filter_key_unique u_id).
  - rewrite filter_none; [done|].
    intros u Hu Heq. apply Hout. rewrite <- Heq. by apply list_elem_of_fmap_2.
Qed.

(** With ids unique, the totals listed on the leaderboard, whenever the
    query returns, add up to the calories of all workouts whose user id
    belongs to a user row: no workout of a registered user is dropped
    or counted twice.  The query returns when the totals fit in 64
    bits. *)
Theorem leaderboard_totals_add_up (s : Store) :
  NoDup (u_id <$> users s) →
  (∀ l, leaderboard s = Ok l →
     sum_Z l.*2
     = sum_Z (calories_burned
                <$> filter (λ w, w_user_id w ∈ u_id <$> users s) (workouts s)))
  ∧ (totals_fit s → ∃ l, leaderboard s = Ok l).
Proof.
  intros Hid. split; [|intros Hfit; eexists; by apply leaderboard_fits].
  intros l ->%leaderboard_Ok.
  rewrite (sum_Z_Permutation _ (map_to_list (group_sum (joined s))).*2)
    by apply fmap_Permutation, merge_sort_Permutation.
  by rewrite sum_group_sum, joined_calories.
Qed.

Lemma leaderboard_totals_add_up_witness :
  leaderboard two_user_store = Ok [("bob", 800); ("ann", 500)]
  ∧ sum_Z [("bob", 800); ("ann", 500)].*2
    = sum_Z (calories_burned <$> workouts two_user_store).
Proof.
  assert (leaderboard two_user_store = Ok [("bob", 800); ("ann", 500)]) as Hl
    by (vm_compute; reflexivity).
  split; [exact Hl|].
  destruct (leaderboard_totals_add_up two_user_store) as [Hsum _];
    [decide_by_compute|].
  rewrite (Hsum _ Hl). reflexivity.
Defined.

(* ================================================================== *)
(** ** Rendering the leaderboard *)

Lemma leaderboard_lines_length k l : length (leaderboard_lines k l) = length l.
Proof. revert k. induction l as [|e l IH]; intros k; simpl; [done|]. by rewrite IH. Qed.

Lemma leaderboard_lines_lookup (k : Z) (l : list (string * Z)) (i : nat) e :
  l !! i = Some e →
  leaderboard_lines k l !! i
  = Some (st_write (pretty (k + Z.of_nat i) +:+ ". " +:+ e.1 +:+ " - "
                    +:+ pretty e.2 +:+ " calories burned")).
Proof.
  revert k i. induction l as [|x l IH]; intros k i Hi; [done|].
  destruct i as [|i]; simpl in *.
  - injection Hi as ->. by rewrite Z.add_0_r.
  - rewrite (IH (k + 1) i Hi). do 3 f_equal. f_equal. lia.
Qed.

(** When the query returns, the page shows the heading and then one
    line per leaderboard entry, in the order of the query, numbered 1,
    2, 3, ...; when the query raises, the page raises the same and
    shows nothing, not even the heading. *)
Theorem display_leaderboard_ranks (s : Store) :
  (∀ l, leaderboard s = Ok l →
     ∃ out, display_leaderboard s = Ok out
       ∧ length out = S (length l)
       ∧ out !! 0%nat = Some (st_subheader "Leaderboard")
       ∧ ∀ (i : nat) e, l !! i = Some e →
           out !! S i
           = Some (st_write (pretty (Z.of_nat i + 1) +:+ ". " +:+ e.1 +:+ " - "
                             +:+ pretty e.2 +:+ " calories burned")))
  ∧ (∀ e, leaderboard s = Raise e → display_leaderboard s = Raise e).
Proof.
  unfold display_leaderboard. split.
  - intros l ->. eexists. split; [reflexivity|]. split_and!.
    + simpl. by rewrite leaderboard_lines_length.
    + done.
    + intros i e Hi. simpl. rewrite (leaderboard_lines_lookup 1 _ i e Hi).
      do 3 f_equal. f_equal. lia.
  - by intros e ->.
Qed.

Lemma display_leaderboard_ranks_witness :
  (∃ out, display_leaderboard two_user_store = Ok out
     ∧ out !! 2%nat = Some (st_write "2. ann - 500 calories burned"))
  ∧ display_leaderboard overflow_store = Raise OperationalError.
Proof.
  destruct (display_leaderboard_ranks two_user_store) as [Hok _].
  destruct (display_leaderboard_ranks overflow_store) as [_ Hraise].
  split.
  - destruct (Hok [("bob", 800); ("ann", 500)]) as (out & Hout & _ & _ & Hline);
      [vm_compute; reflexivity|].
    exists out. split; [exact Hout|].
    apply (Hline 1%nat ("ann", 500)). reflexivity.
  - apply Hraise. vm_compute. reflexivity.
Defined.

(* ================================================================== *)
(** ** The report and the dashboard: when they raise *)

(** [generate_report] raises [TypeError] exactly for an id without a
    user row, as it subscripts the missing row.  With ids unique, for
    the id of a user row it returns the document exactly when that
    user's name, username and email and the types of the user's
    workouts are all in Latin-1, and raises the encoding error
    otherwise. *)
Theorem generate_report_raises_iff (s : Store) :
  (∀ uid, generate_report s uid = Raise TypeError ↔ uid ∉ u_id <$> users s)
  ∧ (NoDup (u_id <$> users s) → ∀ u, u ∈ users s →
       ((∃ doc, generate_report s (u_id u) = Ok doc)
          ↔ report_text_ok u (workout_rows s (u_id u)) = true)
       ∧ (generate_report s (u_id u) = Raise UnicodeEncodeError
          ↔ report_text_ok u (workout_rows s (u_id u)) = false)).
Proof.
  split.
  - intros uid. rewrite generate_report_cases.
    destruct (decide (uid ∈ u_id <$> users s)) as [Hin|Hout].
    + destruct (proj1 (fetch_user_by_id s uid) Hin) as (u & _ & _ & ->).
      destruct (report_text_ok u _); split; done.
    + rewrite (proj2 (fetch_user_by_id s uid) Hout). done.
  - intros Hid u Hu. rewrite generate_report_cases.
    rewrite (filter_key_unique u_id) by done. simpl.
    destruct (report_text_ok u _); split; split; try done; eauto.
    by intros [doc ?].
Qed.

Lemma generate_report_raises_iff_witness :
  generate_report alice_store 2 = Raise TypeError
  ∧ (∃ doc, generate_report alice_store 1 = Ok doc)
  ∧ generate_report zoya_store 1 = Raise UnicodeEncodeError.
Proof.
  destruct (generate_report_raises_iff alice_store) as [Htype Hrow].
  destruct (generate_report_raises_iff zoya_store) as [_ Hzoya].
  split_and!.
  - apply Htype. vm_compute. intros H. apply list_elem_of_singleton in H.
    discriminate H.
  - apply (Hrow ltac:(decide_by_compute)
                (mkUser 1 "alice" "pw" "Alice" "alice@example.org")).
    + vm_compute. left.
    + reflexivity.
  - apply (Hzoya ltac:(decide_by_compute)
                 (mkUser 1 "zoya" "pw" "Зоя" "zoya@example.org")).
    + vm_compute. left.
    + reflexivity.
Defined.

(** For a user row's id, when the texts are in Latin-1, the report gives
    the name, username and email of that row, the number of the user's
    workouts and the int64 sums of their durations and calories (the
    sums themselves when those fit in 64 bits), and then one line per
    workout, in the order the workouts were logged. *)
Theorem generate_report_content (s : Store) (u : User) :
  NoDup (u_id <$> users s) → u ∈ users s →
  report_text_ok u (workout_rows s (u_id u)) = true →
  ∃ doc,
    generate_report s (u_id u) = Ok doc
    ∧ filepath doc = "fitness_report_user_" +:+ pretty (u_id u) +:+ ".pdf"
    ∧ take 14 (pdf doc)
      = [add_page; set_font "Arial" 12;
         cell 200 10 "Fitness Report" align_C; ln 10;
         cell 200 10 ("Name: " +:+ name u) align_default;
         cell 200 10 ("Username: " +:+ username u) align_default;
         cell 200 10 ("Email: " +:+ email u) align_default; ln 10;
         cell 200 10 ("Total Workouts: "
                      +:+ pretty (Z.of_nat (length (workout_rows s (u_id u)))))
              align_default;
         cell 200 10 ("Total Duration: "
                      +:+ pretty (wrap64 (sum_Z (col_duration (workout_rows s (u_id u)))))
                      +:+ " min") align_default;
         cell 200 10 ("Total Calories Burned: "
                      +:+ pretty (wrap64 (user_calories s (u_id u))))
              align_default;
         ln 10;
         cell 200 10 "Workout Log:" align_default; ln 5]
    ∧ drop 14 (pdf doc)
      = (λ r, cell 200 10 (r.1.1 +:+ " - " +:+ pretty r.1.2 +:+ " min - "
                           +:+ pretty r.2 +:+ " cal") align_default)
          <$> workout_rows s (u_id u)
    ∧ (in_int64 (sum_Z (col_duration (workout_rows s (u_id u)))) →
       wrap64 (sum_Z (col_duration (workout_rows s (u_id u))))
       = sum_Z (col_duration (workout_rows s (u_id u))))
    ∧ (in_int64 (user_calories s (u_id u)) →
       wrap64 (user_calories s (u_id u)) = user_calories s (u_id u)).
Proof.
  intros Hid Hu Htext. eexists. split.
  - rewrite generate_report_cases, (filter_key_unique u_id) by done. simpl.
    rewrite Htext. reflexivity.
  - unfold report_calls, user_calories. rewrite !pandas_sum_wrap. simpl.
    split_and!; try done; apply wrap64_in_range.
Qed.

Lemma generate_report_content_witness :
  ∃ doc, generate_report alice_store 1 = Ok doc
    ∧ drop 8 (pdf doc)
      = [cell 200 10 "Total Workouts: 2" align_default;
         cell 200 10 "Total Duration: 50 min" align_default;
         cell 200 10 "Total Calories Burned: 450" align_default; ln 10;
         cell 200 10 "Workout Log:" align_default; ln 5;
         cell 200 10 "Running - 30 min - 300 cal" align_default;
         cell 200 10 "Cycling - 20 min - 150 cal" align_default].
Proof.
  destruct (generate_report_content alice_store
              (mkUser 1 "alice" "pw" "Alice" "alice@example.org"))
    as (doc & Hdoc & _).
  - decide_by_compute.
  - vm_compute. left.
  - reflexivity.
  - exists doc. split; [exact Hdoc|].
    vm_compute in Hdoc. injection Hdoc as <-. reflexivity.
Defined.

(** The dashboard raises only through the report: exactly when the
    button is pressed for a user id that has workout rows and
    [generate_report] raises, and then with the same exception.  In
    every other case it renders. *)
Theorem user_dashboard_raises_iff (s : Store) (uid : Z) (clicked : bool) :
  (∀ e, user_dashboard s uid clicked = Raise e
        ↔ clicked = true ∧ workout_rows s uid ≠ []
          ∧ generate_report s uid = Raise e)
  ∧ ((∃ out, user_dashboard s uid clicked = Ok out)
     ↔ ¬ (clicked = true ∧ workout_rows s uid ≠ []
          ∧ ∃ e, generate_report s uid = Raise e)).
Proof.
  unfold user_dashboard.
  destruct (workout_rows s uid) as [|r df] eqn:E.
  { split; [intros e|]; split.
    - done.
    - by intros (_ & ? & _).
    - by intros _ (_ & ? & _).
    - eauto. }
  destruct clicked.
  - destruct (generate_report s uid) as [doc|e'] eqn:Hr; simpl.
    + split; [intros e|]; split.
      * done.
      * by intros (_ & _ & ?).
      * by intros _ (_ & _ & [e ?]).
      * eauto.
    + split; [intros e|]; split.
      * intros [= ->]. done.
      * by intros (_ & _ & [= ->]).
      * by intros [out ?].
      * intros Hno. exfalso. apply Hno. eauto.
  - simpl. split; [intros e|]; split.
    + done.
    + by intros (? & _).
    + by intros _ (? & _).
    + eauto.
Qed.

Lemma user_dashboard_raises_iff_witness :
  user_dashboard (log_workout alice_store 2 "Running" 10 100) 2 true
    = Raise TypeError
  ∧ ∃ out, user_dashboard alice_store 1 true = Ok out.
Proof.
  destruct (user_dashboard_raises_iff
              (log_workout alice_store 2 "Running" 10 100) 2 true) as [Hraise _].
  destruct (user_dashboard_raises_iff alice_store 1 true) as [_ Hok].
  split.
  - apply Hraise. split; [reflexivity|]. split; [vm_compute; discriminate|].
    reflexivity.
  - apply Hok. intros (_ & _ & e & He). vm_compute in He. discriminate He.
Defined.

(* ================================================================== *)
(** ** What the pages keep *)

Section PageInvariants.

Variable number_input : Z → Z → Z.
Hypothesis number_input_min : ∀ m v, m ≤ number_input m v.

(** What each page does to the four tables. *)
Lemma step_tables s a :
  let s' := step number_input s a in
  (users s' = users s
   ∨ (∃ uname pw nm em,
        (uname ∉ username <$> users s)
        ∧ users s' = users s
                     ++ [mkUser (next_id s "users" (u_id <$> users s)) uname pw nm em])
   ∨ (∃ uname pw, users s' = users (reset_password s uname pw)))
  ∧ (workouts s' = workouts s
     ∨ ∃ uid wtype d c,
         workouts s' = workouts s
           ++ [mkWorkout (next_id s "workouts" (w_id <$> workouts s)) uid wtype
                         (number_input 1 d) (number_input 0 c)])
  ∧ (challenges s' = challenges s
     ∨ ∃ uid cname g ctype,
         challenges s' = challenges s
           ++ [mkChallenge (next_id s "challenges" (c_id <$> challenges s))
                           uid cname (number_input 1 g) ctype])
  ∧ (challenge_participants s' = challenge_participants s
     ∨ ∃ uid cid, (cid = 1 ∨ cid = 2)
         ∧ challenge_participants s'
           = challenge_participants s ++ [mkParticipant uid cid]).
Proof.
  destruct a as [uname pw nm em|uname pw pw'|uid sel d c|uid cname g ctype pressed];
    simpl.
  - rewrite signup_unfold. destruct (decide _) as [Hin|Hout]; simpl.
    + split_and!; by left.
    + split_and!; try by left. right. left. by exists uname, pw, nm, em.
  - destruct (forgot_password_store s uname pw pw') as [-> | ->].
    + split_and!; by left.
    + split_and!; try by left. right. right. by exists uname, pw.
  - split_and!; try by left. right. by exists uid, sel, d, c.
  - unfold challenge_page, offered. simpl.
    destruct pressed as [[|cid]|]; simpl.
    + split_and!; try by left. right. by exists uid, cname, g, ctype.
    + repeat case_bool_decide; simplify_eq; simpl; split_and!;
        first [ by left
              | right; exists uid, 1; split; [by left|done]
              | right; exists uid, 2; split; [by right|done] ].
    + split_and!; by left.
Qed.

Lemma NoDup_snoc_fresh {A} (l : list A) (x : A) : NoDup l → x ∉ l → NoDup (l ++ [x]).
Proof.
  intros Hl Hx. apply NoDup_app. split; [done|]. split; [|apply NoDup_singleton].
  intros y Hy ->%list_elem_of_singleton. done.
Qed.

Lemma step_keys_unique s a : keys_unique s → keys_unique (step number_input s a).
Proof.
  intros (Hu & Hn & Hw & Hc).
  destruct (step_tables s a) as (Hus & Hws & Hcs & _). unfold keys_unique.
  split_and!.
  - destruct Hus as [->|[(uname & pw & nm & em & Hnew & ->)|(uname & pw & ->)]].
    + done.
    + rewrite fmap_app. apply NoDup_snoc_fresh; [done|apply next_id_fresh].
    + by apply (reset_password_wf s uname pw).
  - destruct Hus as [->|[(uname & pw & nm & em & Hnew & ->)|(uname & pw & ->)]].
    + done.
    + rewrite fmap_app. by apply NoDup_snoc_fresh.
    + by apply (reset_password_wf s uname pw).
  - destruct Hws as [->|(uid & wtype & d & c & ->)]; [done|].
    rewrite fmap_app. apply NoDup_snoc_fresh; [done|apply next_id_fresh].
  - destruct Hcs as [->|(uid & cname & g & ctype & ->)]; [done|].
    rewrite fmap_app. apply NoDup_snoc_fresh; [done|apply next_id_fresh].
Qed.

Lemma step_challenges_ok s a : challenges_ok s → challenges_ok (step number_input s a).
Proof.
  intros [Hg Hp]. destruct (step_tables s a) as (_ & _ & Hcs & Hps). split.
  - destruct Hcs as [->|(uid & cname & g & ctype & ->)]; [done|].
    intros c [Hc|Hc%list_elem_of_singleton]%elem_of_app; [by apply Hg|].
    subst c. apply number_input_min.
  - destruct Hps as [->|(uid & cid & Hcid & ->)]; [done|].
    intros p [Hin|Hin%list_elem_of_singleton]%elem_of_app; [by apply Hp|].
    by subst p.
Qed.

Lemma grown_from_refl s : grown_from s s.
Proof. by unfold grown_from. Qed.

Lemma grown_from_trans s1 s2 s3 :
  grown_from s1 s2 → grown_from s2 s3 → grown_from s1 s3.
Proof.
  intros (?&?&?&?) (?&?&?&?). unfold grown_from.
  split_and!; by etrans.
Qed.

Lemma step_grown_from s a : grown_from s (step number_input s a).
Proof.
  destruct (step_tables s a) as (Hus & Hws & Hcs & Hps). unfold grown_from.
  split_and!.
  - destruct Hus as [->|[(uname & pw & nm & em & Hnew & ->)|(uname & pw & ->)]].
    + done.
    + rewrite fmap_app. by apply prefix_app_r.
    + unfold reset_password. simpl. rewrite <- list_fmap_compose.
      erewrite list_fmap_ext; [done|].
      intros i u _. simpl. by destruct (decide _).
  - destruct Hws as [->|(uid & wtype & d & c & ->)]; [done|].
    by apply prefix_app_r.
  - destruct Hcs as [->|(uid & cname & g & ctype & ->)]; [done|].
    by apply prefix_app_r.
  - destruct Hps as [->|(uid & cid & _ & ->)]; [done|].
    by apply prefix_app_r.
Qed.

End PageInvariants.

(** Ids stay unique in each table and usernames stay unique: every page
    keeps this, so it holds in every store built through the pages,
    whatever the number inputs hand back. *)
Theorem pages_keep_keys_unique (number_input : Z → Z → Z) :
  (∀ s a, keys_unique s → keys_unique (step number_input s a))
  ∧ (∀ acts, keys_unique (run number_input Db.empty acts)).
Proof.
  split.
  - intros s a. by apply step_keys_unique.
  - intros acts. apply (run_invariant number_input keys_unique).
    + intros s a. by apply step_keys_unique.
    + unfold keys_unique. simpl. split_and!; apply NoDup_nil_2.
Qed.

Lemma pages_keep_keys_unique_witness :
  keys_unique two_user_store
  ∧ keys_unique (step clamp two_user_store (SignUp "dan" "d" "Dan" "dan@example.org")).
Proof.
  destruct (pages_keep_keys_unique clamp) as [Hstep Hrun].
  assert (keys_unique two_user_store) as H by apply Hrun.
  split; [exact H|]. apply Hstep. exact H.
Defined.

(** When the number inputs respect their minimum, every challenge made
    through the pages has a goal of at least 1, and every membership
    row made through the pages names challenge 1 or 2, the two that are
    offered, whether or not such a challenge exists. *)
Theorem pages_keep_challenges_ok (number_input : Z → Z → Z) :
  (∀ m v, m ≤ number_input m v) →
  (∀ s a, challenges_ok s → challenges_ok (step number_input s a))
  ∧ (∀ acts, challenges_ok (run number_input Db.empty acts)).
Proof.
  intros Hmin. split.
  - intros s a. by apply step_challenges_ok.
  - intros acts. apply (run_invariant number_input challenges_ok).
    + intros s a. by apply step_challenges_ok.
    + split; intros x Hx; by apply not_elem_of_nil in Hx.
Qed.

Lemma pages_keep_challenges_ok_witness :
  challenges_ok
    (run clamp Db.empty
       [SignUp "alice" "pw" "Alice" "alice@example.org";
        Challenges 1 "Plank" 0 "Time-based" (Some CreateButton);
        Challenges 1 "Plank" 0 "Time-based" (Some (JoinButton 2))])
  ∧ challenge_participants
      (run clamp Db.empty
         [Challenges 1 "Plank" 0 "Time-based" (Some (JoinButton 2))])
    = [mkParticipant 1 2].
Proof.
  assert (∀ m v, m ≤ clamp m v) as Hmin by apply clamp_min.
  destruct (pages_keep_challenges_ok clamp Hmin) as [_ Hrun].
  split; [apply Hrun | reflexivity].
Defined.

(** No page deletes or moves a row: after any sequence of pages every
    table still starts with the rows it had, in place, a user row
    having changed in its password at most. *)
Theorem pages_never_delete (number_input : Z → Z → Z) (s : Store) (acts : list action) :
  grown_from s (run number_input s acts).
Proof.
  unfold run. revert s. induction acts as [|a acts IH]; intros s; simpl.
  - apply grown_from_refl.
  - eapply grown_from_trans; [apply step_grown_from|apply IH].
Qed.

(* ================================================================== *)
(** ** Runs of [main] *)

Lemma verify_user_Some s uname pw t :
  verify_user s uname pw = Ok (Some t) →
  ∃ u, u ∈ users s ∧ username u = uname ∧ password u = pw ∧ t = user_tuple u.
Proof.
  rewrite verify_user_unfold.
  destruct (head _) as [u|] eqn:E; [|done].
  destruct (decide (password u = pw)) as [Hpw|]; [|done].
  intros [= <-]. exists u.
  apply head_Some_elem_of, list_elem_of_filter in E as [? ?]. done.
Qed.





Section MainRuns.

Variable number_input : Z → Z → Z.

Lemma workout_page_frame s uid sel d c clicked :
  let s' := (workout_page number_input s uid sel d c clicked).1 in
  users s' = users s ∧ challenges s' = challenges s
  ∧ challenge_participants s' = challenge_participants s
  ∧ (workouts s' = workouts s
     ∨ ∃ x, workouts s' = workouts s ++ [x] ∧ w_user_id x = uid).
Proof.
  unfold workout_page. destruct clicked; simpl; split_and!; try done.
  - right. by eexists.
  - by left.
Qed.

Lemma challenge_page_rows s uid cname g ctype pressed :
  let s' := (challenge_page number_input s uid cname g ctype pressed).1 in
  users s' = users s ∧ workouts s' = workouts s
  ∧ (∀ c, c ∈ challenges s' → c ∈ challenges s ∨ c_user_id c = uid)
  ∧ (∀ p, p ∈ challenge_participants s' →
          p ∈ challenge_participants s ∨ p_user_id p = uid).
Proof.
  unfold challenge_page, offered. simpl.
  repeat case_bool_decide; simpl; split_and!; try done;
    try (intros x; rewrite ?elem_of_app, ?list_elem_of_singleton;
         intros; destruct_or?; subst; simpl; auto).
Qed.

(** What the page of a logged-in visitor does to the store. *)
Lemma main_page_rows s uid n s' out :
  main_page number_input s uid n = Ok (s', out) →
  users s' = users s
  ∧ (∀ x, x ∈ workouts s' → x ∈ workouts s ∨ w_user_id x = uid)
  ∧ (∀ c, c ∈ challenges s' → c ∈ challenges s ∨ c_user_id c = uid)
  ∧ (∀ p, p ∈ challenge_participants s' →
          p ∈ challenge_participants s ∨ p_user_id p = uid).
Proof.
  destruct n as [clicked|sel d c clicked|cname g ctype pressed| |]; simpl.
  - destruct (user_dashboard s uid clicked); simpl; [|done].
    intros [= <- <-]. split_and!; auto.
  - intros [= <- <-].
    destruct (workout_page_frame s uid sel d c clicked) as (-> & -> & -> & Hw).
    split_and!; auto.
    destruct Hw as [->|(x & -> & Hx)]; [auto|].
    intros y [?|Hy%list_elem_of_singleton]%elem_of_app; [auto|].
    subst y. auto.
  - intros [= <- <-].
    destruct (challenge_page_rows s uid cname g ctype pressed) as (-> & -> & Hc & Hp).
    split_and!; auto.
  - destruct (display_leaderboard s); simpl; [|done].
    intros [= <- <-]. split_and!; auto.
  - intros [= <- <-]. split_and!; auto.
Qed.


(** A run of a visitor who is not logged in. *)
Lemma main_logged_out_run s ss c o :
  main_logged_out s ss c = Ok o →
  workouts (o_store o) = workouts s
  ∧ challenges (o_store o) = challenges s
  ∧ challenge_participants (o_store o) = challenge_participants s
  ∧ (∀ i, i ∈ u_id <$> users s → i ∈ u_id <$> users (o_store o))
  ∧ (o_session o = ss
     ∨ ∃ uname pw u,
         c = MenuLogin uname pw true
         ∧ u ∈ users s ∧ username u = uname ∧ password u = pw
         ∧ o_session o = mkSession true (Some (user_tuple u))
         ∧ o_store o = s ∧ o_rerun o = true).
Proof.
  destruct c as [|uname pw pressed|uname pw nm em pressed|uname pw pw' pressed];
    simpl.
  - intros [= <-]. simpl. split_and!; auto.
  - destruct pressed.
    + destruct (verify_user s uname pw) as [[t|]|e] eqn:E; simpl; [| |done].
      * apply verify_user_Some in E as (u & Hu & Hn & Hp & ->). simpl.
        intros [= <-]. simpl. split_and!; auto.
        right. by exists uname, pw, u.
      * intros [= <-]. simpl. split_and!; auto.
    + intros [= <-]. simpl. split_and!; auto.
  - destruct pressed.
    + rewrite signup_unfold. destruct (decide _); simpl; intros [= <-]; simpl;
        split_and!; auto.
      intros i Hi. rewrite fmap_app. apply elem_of_app. by left.
    + intros [= <-]. simpl. split_and!; auto.
  - destruct pressed.
    + intros [= <-]. simpl.
      destruct (forgot_password_store s uname pw pw') as [-> | ->];
        split_and!; auto.
      intros i Hi. unfold reset_password. simpl. rewrite <- list_fmap_compose.
      erewrite list_fmap_ext; [exact Hi|].
      intros j u _. simpl. by destruct (decide _).
    + intros [= <-]. simpl. split_and!; auto.
Qed.


(** A run of a logged-in visitor whose session holds a user row. *)
Lemma main_logged_in_run s ss w u o :
  ss_user ss = Some (user_tuple u) →
  main_logged_in number_input s ss w = Ok o →
  users (o_store o) = users s
  ∧ (∀ x, x ∈ workouts (o_store o) → x ∈ workouts s ∨ w_user_id x = u_id u)
  ∧ (∀ c, c ∈ challenges (o_store o) → c ∈ challenges s ∨ c_user_id c = u_id u)
  ∧ (∀ p, p ∈ challenge_participants (o_store o) →
          p ∈ challenge_participants s ∨ p_user_id p = u_id u)
  ∧ (if logout w
     then o = mkOutcome s (mkSession false None)
                (banner ++ [sidebar (st_success ("Welcome, " +:+ name u +:+ "! 👋"))])
                true
     else o_session o = ss ∧ o_rerun o = false).
Proof.
  intros Hu. unfold main_logged_in. rewrite Hu. simpl.
  destruct (logout w).
  - intros [= <-]. simpl. split_and!; auto.
  - destruct (main_page number_input s (u_id u) (nav w)) as [[s' out]|e] eqn:E;
      simpl; [|done].
    intros [= <-]. simpl.
    destruct (main_page_rows _ _ _ _ _ E) as (? & ? & ? & ?).
    split_and!; auto.
Qed.


End MainRuns.



(** A visitor who is not logged in cannot touch workouts, challenges or
    memberships, and comes out logged in only by pressing Login with
    the username and the password of a user row; the session then holds
    that row and the run ends in a rerun. *)
Theorem main_login_gate (number_input : Z → Z → Z)
    (s : Store) (state : option Session) (w : widgets) (o : outcome) :
  (∀ ss, state = Some ss → ss_logged_in ss = false) →
  main number_input s state w = Ok o →
  workouts (o_store o) = workouts s
  ∧ challenges (o_store o) = challenges s
  ∧ challenge_participants (o_store o) = challenge_participants s
  ∧ (ss_logged_in (o_session o) = true →
     ∃ uname pw u,
       choice w = MenuLogin uname pw true
       ∧ u ∈ users s ∧ username u = uname ∧ password u = pw
       ∧ o_session o = mkSession true (Some (user_tuple u))
       ∧ o_store o = s ∧ o_rerun o = true).
Proof.
  intros Hout Hrun. unfold main in Hrun.
  assert (ss_logged_in (default (mkSession false None) state) = false) as Hss.
  { destruct state as [ss|]; simpl; [by apply Hout|done]. }
  rewrite Hss in Hrun. simpl in Hrun.
  apply main_logged_out_run in Hrun as (Hw & Hc & Hp & _ & Hsession).
  split_and!; try done.
  intros Hin. destruct Hsession as [Heq|(uname & pw & u & ?)].
  - rewrite Heq, Hss in Hin. done.
  - by exists uname, pw, u.
Qed.

Lemma main_login_gate_witness :
  ∃ o, main clamp alice_store None
            (mkWidgets (MenuLogin "alice" "PW" true) false NavLeaderboard) = Ok o
       ∧ ss_logged_in (o_session o) = false
       ∧ workouts (o_store o) = workouts alice_store.
Proof.
  eexists. split; [vm_compute; reflexivity|]. split; [reflexivity|].
  eapply (main_login_gate clamp alice_store None
            (mkWidgets (MenuLogin "alice" "PW" true) false NavLeaderboard)).
  - intros ss [=].
  - vm_compute. reflexivity.
Defined.

(** A logged-in visitor cannot touch the users table, and every row a
    run adds to workouts, challenges or memberships carries the id of
    the session's user.  Pressing Logout clears the session and asks
    for a rerun before any page is drawn, the store untouched;
    otherwise the session stays as it is. *)
Theorem main_logged_in_rows (number_input : Z → Z → Z)
    (s : Store) (ss : Session) (w : widgets) (u : User) (o : outcome) :
  ss_logged_in ss = true → ss_user ss = Some (user_tuple u) →
  main number_input s (Some ss) w = Ok o →
  users (o_store o) = users s
  ∧ (∀ x, x ∈ workouts (o_store o) → x ∈ workouts s ∨ w_user_id x = u_id u)
  ∧ (∀ c, c ∈ challenges (o_store o) → c ∈ challenges s ∨ c_user_id c = u_id u)
  ∧ (∀ p, p ∈ challenge_participants (o_store o) →
          p ∈ challenge_participants s ∨ p_user_id p = u_id u)
  ∧ (if logout w
     then o = mkOutcome s (mkSession false None)
                (banner ++ [sidebar (st_success ("Welcome, " +:+ name u +:+ "! 👋"))])
                true
     else o_session o = ss ∧ o_rerun o = false).
Proof.
  intros Hin Hu Hrun. unfold main in Hrun. simpl in Hrun.
  rewrite Hin in Hrun. simpl in Hrun.
  by apply (main_logged_in_run number_input s ss w u o Hu).
Qed.

Lemma main_logged_in_rows_witness :
  ∃ o, main clamp alice_store
            (Some (mkSession true
                     (Some (user_tuple (mkUser 1 "alice" "pw" "Alice" "alice@example.org")))))
            (mkWidgets MenuHome false (NavLogWorkout "Yoga" 45 120 true)) = Ok o
       ∧ users (o_store o) = users alice_store
       ∧ workouts (o_store o)
         = workouts alice_store ++ [mkWorkout 3 1 "Yoga" 45 120].
Proof.
  eexists. split; [vm_compute; reflexivity|]. split; [|reflexivity].
  eapply (main_logged_in_rows clamp alice_store
            (mkSession true
               (Some (user_tuple (mkUser 1 "alice" "pw" "Alice" "alice@example.org"))))
            (mkWidgets MenuHome false (NavLogWorkout "Yoga" 45 120 true))
            (mkUser 1 "alice" "pw" "Alice" "alice@example.org")).
  - reflexivity.
  - reflexivity.
  - vm_compute. reflexivity.
Defined.

(* ================================================================== *)
(** ** The Visualizations page against the dashboard *)

Lemma filter_key_fmap {A B} (key : A → string) (val : A → B) (l : list A) (k : string) :
  filter (λ p, p.1 = k) ((λ x, (key x, val x)) <$> l)
  = (λ x, (key x, val x)) <$> filter (λ x, key x = k) l.
Proof.
  induction l as [|x l IH]; [done|].
  rewrite fmap_cons, !filter_cons, IH. simpl.
  by destruct (decide (key x = k)).
Qed.

Lemma foldl_frame_calories (a : Z * Z) (vals : list (Z * Z)) :
  (foldl (λ acc x, (wrap64 (acc.1 + x.1), wrap64 (acc.2 + x.2))) a vals).2
  = foldl (λ acc x, wrap64 (acc + x)) a.2 vals.*2.
Proof.
  revert a. induction vals as [|v vals IH]; intros a; [done|].
  simpl. by rewrite IH.
Qed.

Lemma group_sum_frame_calories (df : list (string * Z * Z)) :
  snd <$> group_sum_frame df = pandas_group_sum ((λ r, (r.1.1, r.2)) <$> df).
Proof.
  apply map_eq. intros k. unfold group_sum_frame, pandas_group_sum.
  rewrite lookup_fmap, !group_by_fold_lookup.
  rewrite <- !list_fmap_compose.
  destruct (decide (k ∈ (fst ∘ (λ r : string * Z * Z, (r.1.1, (r.1.2, r.2)))) <$> df))
    as [Hin|Hout];
    destruct (decide (k ∈ (fst ∘ (λ r : string * Z * Z, (r.1.1, r.2))) <$> df))
    as [Hin'|Hout']; try done.
  simpl. f_equal. rewrite foldl_frame_calories. simpl. f_equal.
  rewrite (filter_key_fmap (λ r : string * Z * Z, r.1.1) (λ r, (r.1.2, r.2))).
  rewrite (filter_key_fmap (λ r : string * Z * Z, r.1.1) (λ r, r.2)).
  by rewrite <- !list_fmap_compose.
Qed.

(** The two pages agree: for a user without workouts each shows its
    notice and no chart; otherwise the calories per workout type
    plotted on the Visualizations page are those of the dashboard's bar
    chart. *)
Theorem visualizations_match_dashboard (s : Store) (uid : Z) :
  (workout_rows s uid = [] →
     visualizations_page s uid
       = [main_area (st_title "📊 Workout Visualizations");
          main_area (st_info "No workout data available to visualize.")]
     ∧ user_dashboard s uid false
       = Ok [st_balloons; st_header "🏋️‍♀️ Your Fitness Dashboard";
             st_info "You haven't logged any workouts yet."])
  ∧ (workout_rows s uid ≠ [] →
     ∃ frame series out,
       st_plotly_chart (px_bar frame "Total Calories Burned by Workout Type")
         ∈ visualizations_page s uid
       ∧ user_dashboard s uid false = Ok out
       ∧ st_bar_chart series ∈ out
       ∧ snd <$> frame = series).
Proof.
  unfold visualizations_page, user_dashboard. split.
  - by intros ->.
  - intros Hrows. destruct (workout_rows s uid) as [|r df]; [done|].
    eexists _, _, _. split_and!.
    + do 2 right. left.
    + reflexivity.
    + do 6 right. left.
    + apply group_sum_frame_calories.
Qed.

Lemma visualizations_match_dashboard_witness :
  ∃ frame,
    st_plotly_chart (px_bar frame "Total Calories Burned by Workout Type")
      ∈ visualizations_page alice_store 1
    ∧ frame = {[ "Running" := (30, 300); "Cycling" := (20, 150) ]}
    ∧ snd <$> frame = {[ "Running" := 300; "Cycling" := 150 ]}.
Proof.
  destruct (visualizations_match_dashboard alice_store 1) as [_ H].
  destruct H as (frame & series & out & Hv & Hd & Hs & Heq).
  - vm_compute. discriminate.
  - exists (group_sum_frame (workout_rows alice_store 1)).
    split; [do 2 right; left|]. split; vm_compute; reflexivity.
Defined.

(* ================================================================== *)
(** ** The Challenges page, button by button *)

(** With no button pressed the page leaves the store alone.  "Create
    Challenge" adds one challenge with the goal the number input holds
    and no membership.  A "Join" button adds one membership row for the
    visitor and its challenge, whether or not the visitor is a member
    already and whether or not the challenge exists; only challenges 1
    and 2 have such a button. *)
Theorem challenge_page_effect (number_input : Z → Z → Z)
    (s : Store) (uid : Z) (cname : string) (g : Z) (ctype : string) :
  (challenge_page number_input s uid cname g ctype None).1 = s
  ∧ (challenge_page number_input s uid cname g ctype (Some CreateButton)).1
    = create_challenge s uid cname (number_input 1 g) ctype
  ∧ (∀ cid, cid = 1 ∨ cid = 2 →
       (challenge_page number_input s uid cname g ctype (Some (JoinButton cid))).1
       = join_challenge s uid cid)
  ∧ (∀ cid, cid ≠ 1 → cid ≠ 2 →
       (challenge_page number_input s uid cname g ctype (Some (JoinButton cid))).1
       = s).
Proof.
  unfold challenge_page, offered. simpl. split_and!.
  - done.
  - done.
  - intros cid [-> | ->]; simpl; done.
  - intros cid H1 H2.
    rewrite !bool_decide_eq_false_2 by congruence. done.
Qed.

Lemma challenge_page_effect_witness :
  (challenge_page clamp alice_store 1 "Plank" 5 "Time-based"
                  (Some (JoinButton 2))).1
  = join_challenge alice_store 1 2
  ∧ (challenge_page clamp alice_store 1 "Plank" 5 "Time-based"
                    (Some (JoinButton 3))).1
    = alice_store.
Proof.
  destruct (challenge_page_effect clamp alice_store 1 "Plank" 5 "Time-based")
    as (_ & _ & Hjoin & Hother).
  split.
  - apply Hjoin. by right.
  - apply Hother; discriminate.
Defined.
